(** * GMX Risk Guard: the position risk calculator

    A shallow embedding of [src/lib/constants.ts] (the asset table and the
    fee rates) and of [src/lib/gmx-calculations.ts] (liquidation price,
    profit and loss, fees, risk/reward and the validator), followed by the
    properties the specification states about them.

    Numbers.  The TypeScript type [number] is binary64.  The file reads the
    arithmetic functions twice, from the same source lines.

    - The exact reading, over the rationals [Q]: every literal of the source
      ([0.85], [0.0001], [50], ...) is a rational and the functions only
      add, subtract, multiply, divide, compare and take absolute values.
      It has no rounding, no infinities and no NaN, and [x / 0] is [0], so
      a statement that divides carries the hypotheses that keep its
      divisors away from zero.  Equality of numbers is [Qeq] ([==]).  The
      universally quantified statements are proved in this reading, and
      they are phrased so that they carry over to the program's numbers:
      comparisons that the program itself makes, two runs of the same
      computation, and non-strict inequalities, which correctly rounded
      operations keep; where overflow would break one, the statement bounds
      its inputs by [MAX_VALUE].

    - The binary64 reading, module [Binary64], over the primitive floating
      point numbers: it decides what the program returns on a given input,
      and the inputs on which a statement of the specification fails are
      evaluated there.

    Strings are [string]; [Array.prototype.find] is [List.find]; an array
    that is filled with [push] is a list that grows at its end; a function
    that can [throw] returns an [outcome].

    Beyond the library, the file embeds the pure helpers of [utils.ts] and
    the bodies of the effects of three components (liquidation panel,
    profit-and-loss simulator, risk/reward panel) as functions from the
    component's inputs to the values its state variables are set to. *)

From Stdlib Require Import QArith Qabs Qminmax Qround List String Bool.
From Stdlib Require Import ZArith Lia Lqa.
From Stdlib Require Import DecimalString.
From Stdlib Require Floats.

Set Warnings "-inexact-float".
Import ListNotations.

Local Open Scope Q_scope.

(** ** JavaScript primitives used by the library *)

Module Js.

(** [a < b] and [a <= b] and [a > b] on numbers, as booleans. *)
Definition leb (a b : Q) : bool := Qle_bool a b.
Definition ltb (a b : Q) : bool := negb (Qle_bool b a).
Definition gtb (a b : Q) : bool := ltb b a.

(** [!s] for a string: only the empty string is falsy. *)
Definition not_string (s : string) : bool :=
  match s with
  | EmptyString => true
  | String _ _ => false
  end.

(** [errors.push(msg)]: the array grows at its end. *)
Definition push {A : Type} (arr : list A) (x : A) : list A := arr ++ [x].

(** [`${n}`] for an integer [n]: its decimal digits, with a sign when
    negative. *)
Definition string_of_Z (n : Z) : string := NilZero.string_of_int (Z.to_int n).

(** [Math.round]: the nearest integer, halves going up. *)
Definition round (x : Q) : Z := Qfloor (x + 0.5).

(** A call either returns a value or throws [new Error(msg)]. *)
Inductive outcome (A : Type) : Type :=
| Returned (a : A)
| Thrown (msg : string).

Arguments Returned {A} a.
Arguments Thrown {A} msg.

End Js.

Import Js.

(** ** constants.ts *)

(** An entry of [SUPPORTED_ASSETS].  The table is declared [as const] with
    integer literals in its numeric fields, so they are kept as integers:
    the validator prints [maxLeverage] inside a message. *)
Record Asset : Type := mkAsset {
  symbol : string;
  name : string;
  address : string;
  decimals : Z;
  priceDecimals : Z;
  minLeverage : Z;
  maxLeverage : Z;
  defaultLeverage : Z
}.

Definition SUPPORTED_ASSETS : list Asset :=
  [ mkAsset "AVAX" "Avalanche" "0xB31f66AA3C1e785363F0875A1B74E27b85FD66c7"
            18 8 1 50 5;
    mkAsset "BTC" "Bitcoin" "0x50b7545627a5162F82A992c33b87aDc75187B218"
            8 8 1 50 3;
    mkAsset "ETH" "Ethereum" "0x49D5c2BdFfac6CE2BFdB6640F4F80f226bc10bAB"
            18 8 1 50 3;
    mkAsset "USDC" "USD Coin" "0xB97EF9Ef8734C71904D8002F8b6Bc66Dd9c48a6E"
            6 8 1 50 5 ].

Module FEE_STRUCTURE.

Definition swapFee : Q := 0.0005.
Definition positionFee : Q := 0.0001.
Definition liquidationFee : Q := 0.02.
Definition borrowingFee : Q := 0.0001.
Definition fundingRate : Q := 0.0001.

End FEE_STRUCTURE.

(** ** gmx-calculations.ts: the value objects *)

Record PositionParams : Type := mkPositionParams {
  asset : string;
  collateral : Q;
  leverage : Q;
  isLong : bool;
  entryPrice : Q
}.

Record LiquidationResult : Type := mkLiquidationResult {
  liquidationPrice : Q;
  distanceToLiquidation : Q;
  distancePercentage : Q;
  marginRatio : Q
}.

Record PnLResult : Type := mkPnLResult {
  pnl : Q;
  pnlPercentage : Q;
  roi : Q;
  breakevenPrice : Q
}.

Record FeeResult : Type := mkFeeResult {
  positionFee : Q;
  borrowingFee : Q;
  fundingFee : Q;
  totalFees : Q
}.

Record RiskRewardResult : Type := mkRiskRewardResult {
  riskRewardRatio : Q;
  expectedValue : Q;
  probabilityOfProfit : Q;
  maxLoss : Q;
  maxProfit : Q
}.

Record ValidationResult : Type := mkValidationResult {
  isValid : bool;
  errors : list string
}.

(** Two result records hold the same numbers. *)
Definition PnLResult_eq (a b : PnLResult) : Prop :=
  pnl a == pnl b /\ pnlPercentage a == pnlPercentage b /\
  roi a == roi b /\ breakevenPrice a == breakevenPrice b.

Definition FeeResult_eq (a b : FeeResult) : Prop :=
  positionFee a == positionFee b /\ borrowingFee a == borrowingFee b /\
  fundingFee a == fundingFee b /\ totalFees a == totalFees b.

(** ** gmx-calculations.ts: the functions *)

(** [SUPPORTED_ASSETS.find(a => a.symbol === asset)] *)
Definition find_asset (sym : string) : option Asset :=
  find (fun a => String.eqb (symbol a) sym) SUPPORTED_ASSETS.

Definition supported_symbols : list string := map symbol SUPPORTED_ASSETS.

Definition unsupported_message (sym : string) : string :=
  ("Asset " ++ sym ++ " not supported")%string.

Definition calculateLiquidationPrice (params : PositionParams)
  : outcome LiquidationResult :=
  let '(mkPositionParams asset collateral leverage isLong entryPrice) := params in
  match find_asset asset with
  | None => Thrown (unsupported_message asset)
  | Some assetConfig =>
      let positionSize := collateral * leverage in
      let marginRatio := 1 / leverage in
      let liquidationThreshold := 0.85 in
      let liquidationPrice :=
        if isLong
        then entryPrice * (1 - marginRatio * liquidationThreshold)
        else entryPrice * (1 + marginRatio * liquidationThreshold) in
      let distanceToLiquidation := Qabs (entryPrice - liquidationPrice) in
      let distancePercentage := (distanceToLiquidation / entryPrice) * 100 in
      Returned (mkLiquidationResult liquidationPrice distanceToLiquidation
                                    distancePercentage (marginRatio * 100))
  end.

Definition calculateTotalFees (params : PositionParams) (hours : Q)
  : FeeResult :=
  let positionSize := collateral params * leverage params in
  let positionFee := positionSize * FEE_STRUCTURE.positionFee in
  let borrowingFee := positionSize * FEE_STRUCTURE.borrowingFee * hours in
  let fundingFee := positionSize * FEE_STRUCTURE.fundingRate * hours in
  let totalFees := positionFee + borrowingFee + fundingFee in
  mkFeeResult positionFee borrowingFee fundingFee totalFees.

Definition calculatePnL (params : PositionParams) (currentPrice : Q)
  : PnLResult :=
  let '(mkPositionParams _ collateral leverage isLong entryPrice) := params in
  let positionSize := collateral * leverage in
  let priceChange := currentPrice - entryPrice in
  let priceChangePercentage := (priceChange / entryPrice) * 100 in
  let pnl :=
    if isLong
    then positionSize * (priceChangePercentage / 100)
    else positionSize * (- priceChangePercentage / 100) in
  let pnlPercentage :=
    if isLong
    then priceChangePercentage * leverage
    else - priceChangePercentage * leverage in
  let roi := (pnl / collateral) * 100 in
  let totalFees := totalFees (calculateTotalFees params 24) in
  let breakevenPnL := totalFees in
  let breakevenPriceChange := (breakevenPnL / positionSize) * 100 in
  let breakevenPrice :=
    if isLong
    then entryPrice * (1 + breakevenPriceChange / 100)
    else entryPrice * (1 - breakevenPriceChange / 100) in
  mkPnLResult pnl pnlPercentage roi breakevenPrice.

Definition calculateRiskReward (params : PositionParams)
    (stopLoss takeProfit : Q) : RiskRewardResult :=
  let entryPrice := entryPrice params in
  let maxLoss :=
    if isLong params
    then Qabs (entryPrice - stopLoss)
    else Qabs (stopLoss - entryPrice) in
  let maxProfit :=
    if isLong params
    then Qabs (takeProfit - entryPrice)
    else Qabs (entryPrice - takeProfit) in
  let riskRewardRatio := maxProfit / maxLoss in
  let probabilityOfProfit := 1 / (1 + riskRewardRatio) in
  let expectedValue :=
    (maxProfit * probabilityOfProfit) - (maxLoss * (1 - probabilityOfProfit)) in
  mkRiskRewardResult riskRewardRatio expectedValue (probabilityOfProfit * 100)
                     maxLoss maxProfit.

(** The union type ['Conservative' | 'Moderate' | 'Aggressive']. *)
Inductive RiskTolerance : Type := Conservative | Moderate | Aggressive.

Definition riskMultiplier (riskTolerance : RiskTolerance) : Q :=
  match riskTolerance with
  | Conservative => 0.5
  | Moderate => 1.0
  | Aggressive => 1.5
  end.

Definition calculateSafeLeverage (asset : string) (volatility : Q)
    (riskTolerance : RiskTolerance) : Q :=
  let baseLeverage := Qmax 1 (Qmin 50 (10 / volatility)) in
  let recommendedLeverage :=
    inject_Z (Js.round (baseLeverage * riskMultiplier riskTolerance)) in
  Qmax 1 (Qmin 50 recommendedLeverage).

Definition calculatePositionSize
    (accountValue riskPercentage stopLossPercentage : Q) : Q :=
  let riskAmount := accountValue * (riskPercentage / 100) in
  let positionSize := riskAmount / (stopLossPercentage / 100) in
  positionSize.

Definition calculateMarginRequirement (positionSize leverage : Q) : Q :=
  positionSize / leverage.

Definition calculateMaxPositionSize
    (availableLiquidity maxLeverage price : Q) : Q :=
  Qmin availableLiquidity (price * maxLeverage).

(** The messages of the validator. *)
Definition msg_asset_required : string := "Asset is required".
Definition msg_collateral : string := "Collateral must be greater than 0".
Definition msg_leverage_range : string := "Leverage must be between 1x and 50x".
Definition msg_entry_price : string := "Entry price must be greater than 0".
Definition msg_max_leverage_prefix : string := "Maximum leverage for ".
Definition msg_max_leverage (sym : string) (max : Z) : string :=
  (msg_max_leverage_prefix ++ sym ++ " is " ++ string_of_Z max ++ "x")%string.

Definition validatePosition (params : PositionParams) : ValidationResult :=
  let errors : list string := [] in
  let '(mkPositionParams asset collateral leverage _ entryPrice) := params in
  let errors :=
    if not_string asset then push errors msg_asset_required else errors in
  let errors :=
    if leb collateral 0 then push errors msg_collateral else errors in
  let errors :=
    if ltb leverage 1 || gtb leverage 50
    then push errors msg_leverage_range else errors in
  let errors :=
    if leb entryPrice 0 then push errors msg_entry_price else errors in
  let assetConfig := find_asset asset in
  let errors :=
    match assetConfig with
    | Some assetConfig =>
        if gtb leverage (inject_Z (maxLeverage assetConfig))
        then push errors (msg_max_leverage asset (maxLeverage assetConfig))
        else errors
    | None => errors
    end in
  mkValidationResult (Nat.eqb (List.length errors) 0) errors.

(** ** constants.ts: risk levels and interface constants *)

Module RISK_LEVELS.

Record RiskLevelConfig : Type := mkRiskLevelConfig {
  name : string;
  maxLeverage : Z;
  color : string;
  bgColor : string;
  description : string
}.

Definition CONSERVATIVE : RiskLevelConfig :=
  mkRiskLevelConfig "Conservative" 3 "text-green-400" "bg-green-400/10"
                    "Low risk, suitable for beginners".

Definition MODERATE : RiskLevelConfig :=
  mkRiskLevelConfig "Moderate" 10 "text-yellow-400" "bg-yellow-400/10"
                    "Balanced risk and reward".

Definition AGGRESSIVE : RiskLevelConfig :=
  mkRiskLevelConfig "Aggressive" 50 "text-red-400" "bg-red-400/10"
                    "High risk, high reward potential".

End RISK_LEVELS.

Module UI_CONSTANTS.

Definition maxLeverage : Q := 50.
Definition minLeverage : Q := 1.
Definition defaultCollateral : Q := 1000.
Definition priceChangeScenarios : list Q := [5; 10; 20; 50].
Definition timeframes : list (string * Q) :=
  [ ("1 Hour"%string, 1); ("1 Day"%string, 24);
    ("7 Days"%string, 168); ("30 Days"%string, 720) ].

End UI_CONSTANTS.

(** ** utils.ts *)

(** A member of ['Conservative' | 'Moderate' | 'Aggressive'] as the string
    it is. *)
Definition level_string (level : RiskTolerance) : string :=
  match level with
  | Conservative => "Conservative"
  | Moderate => "Moderate"
  | Aggressive => "Aggressive"
  end.

(** [RISK_LEVELS[level.toUpperCase()]], as the components look it up. *)
Definition risk_level_config (level : RiskTolerance)
  : RISK_LEVELS.RiskLevelConfig :=
  match level with
  | Conservative => RISK_LEVELS.CONSERVATIVE
  | Moderate => RISK_LEVELS.MODERATE
  | Aggressive => RISK_LEVELS.AGGRESSIVE
  end.

Definition getRiskLevel (leverage : Q) : RiskTolerance :=
  if leb leverage 3 then Conservative
  else if leb leverage 10 then Moderate
  else Aggressive.

Definition getRiskColor (riskLevel : string) : string :=
  if String.eqb riskLevel "Conservative" then "text-green-400"
  else if String.eqb riskLevel "Moderate" then "text-yellow-400"
  else if String.eqb riskLevel "Aggressive" then "text-red-400"
  else "text-gray-400".

(** [String.prototype.slice(start, end)]; [None] for an omitted [end]. *)
Definition slice (s : string) (start : Z) (stop : option Z) : string :=
  let len := Z.of_nat (String.length s) in
  let clamp (i : Z) : Z :=
    if (i <? 0)%Z then Z.max (len + i) 0 else Z.min i len in
  let from := clamp start in
  let to := match stop with
            | None => len
            | Some e => clamp e
            end in
  substring (Z.to_nat from) (Z.to_nat (Z.max (to - from) 0)) s.

(** The character class [[a-fA-F0-9]]. *)
Definition is_hex_char (c : Ascii.ascii) : bool :=
  let n := Ascii.nat_of_ascii c in
  ((48 <=? n) && (n <=? 57) || (65 <=? n) && (n <=? 70) ||
   (97 <=? n) && (n <=? 102))%nat.

Fixpoint all_hex (s : string) : bool :=
  match s with
  | EmptyString => true
  | String c rest => is_hex_char c && all_hex rest
  end.

(** [/^0x[a-fA-F0-9]{40}$/.test(address)] *)
Definition isValidAddress (address : string) : bool :=
  String.prefix "0x" address &&
  Nat.eqb (String.length address) 42 &&
  all_hex (substring 2 40 address).

(** [shortenAddress(address, chars)] for an integer [chars]; the source
    defaults [chars] to 4. *)
Definition shortenAddress (address : string) (chars : Z) : string :=
  if not_string address then ""%string
  else (slice address 0 (Some (chars + 2)%Z) ++ "..." ++
        slice address (- chars) None)%string.

(** ** The components: what each effect leaves in its two state variables *)

Module CalculatorState.

Record t : Type := mk {
  asset : string;
  collateral : Q;
  leverage : Q;
  isLong : bool;
  entryPrice : Q;
  currentPrice : Q
}.

(** The object literal every effect passes to the library. *)
Definition params (state : t) : PositionParams :=
  mkPositionParams (asset state) (collateral state) (leverage state)
                   (isLong state) (entryPrice state).

End CalculatorState.

(** The two state variables of a component after its effect has run:
    [calculation] and [errors] (here [shownErrors]).  Every branch of every
    effect sets both, so the result does not depend on what they held
    before. *)
Record Hooks (A : Type) : Type := mkHooks {
  calculation : option A;
  shownErrors : list string
}.

Arguments mkHooks {A} calculation shownErrors.
Arguments calculation {A} h.
Arguments shownErrors {A} h.

Module LiquidationCalculator.

(** [LiquidationCalculation]: the four fields of the result, copied one by
    one, and the risk level. *)
Record LiquidationCalculation : Type := mkLiquidationCalculation {
  result : LiquidationResult;
  riskLevel : RiskTolerance
}.

Definition effect (state : CalculatorState.t) : Hooks LiquidationCalculation :=
  let validation := validatePosition (CalculatorState.params state) in
  if isValid validation then
    match calculateLiquidationPrice (CalculatorState.params state) with
    | Returned result =>
        let riskLevel := getRiskLevel (CalculatorState.leverage state) in
        mkHooks (Some (mkLiquidationCalculation result riskLevel)) []
    | Thrown message => mkHooks None [message]
    end
  else mkHooks None (errors validation).

End LiquidationCalculator.

Module PnLSimulator.

Record Scenario : Type := mkScenario {
  priceChange : Q;
  price : Q;
  pnl : Q;
  pnlPercentage : Q;
  roi : Q
}.

Record PnLCalculation : Type := mkPnLCalculation {
  scenarios : list Scenario;
  breakevenPrice : Q
}.

Definition scenario (state : CalculatorState.t) (change : Q) : Scenario :=
  let priceChange :=
    if CalculatorState.isLong state then change else - change in
  let newPrice := CalculatorState.entryPrice state * (1 + priceChange / 100) in
  let '(mkPnLResult pnl pnlPercentage roi _) :=
    calculatePnL (CalculatorState.params state) newPrice in
  mkScenario change newPrice pnl pnlPercentage roi.

Definition effect (state : CalculatorState.t) : Hooks PnLCalculation :=
  let validation := validatePosition (CalculatorState.params state) in
  if isValid validation then
    let scenarios := map (scenario state) UI_CONSTANTS.priceChangeScenarios in
    let '(mkPnLResult _ _ _ breakevenPrice) :=
      calculatePnL (CalculatorState.params state)
                   (CalculatorState.entryPrice state) in
    mkHooks (Some (mkPnLCalculation scenarios breakevenPrice)) []
  else mkHooks None (errors validation).

End PnLSimulator.

Module RiskRewardRatio.

(** [RiskRewardCalculation]: the result spread into the record, and the
    recommendation. *)
Record RiskRewardCalculation : Type := mkRiskRewardCalculation {
  result : RiskRewardResult;
  recommendation : string
}.

Definition msg_stop_loss : string := "Stop-loss must be greater than 0".
Definition msg_take_profit : string := "Take-profit must be greater than 0".
Definition msg_order_long : string :=
  "Stop-loss must be below take-profit for long positions".
Definition msg_order_short : string :=
  "Stop-loss must be above take-profit for short positions".

Definition recommend (riskRewardRatio : Q) : string :=
  if leb 3 riskRewardRatio
  then "Excellent risk/reward ratio. This trade setup looks very favorable."
  else if leb 2 riskRewardRatio
  then "Good risk/reward ratio. This trade setup is reasonable."
  else if leb 1.5 riskRewardRatio
  then "Acceptable risk/reward ratio. Consider adjusting stop-loss or take-profit levels."
  else "Poor risk/reward ratio. Consider revising your trade setup or avoiding this trade.".

Definition effect (state : CalculatorState.t) (stopLoss takeProfit : Q)
  : Hooks RiskRewardCalculation :=
  let validation := validatePosition (CalculatorState.params state) in
  if isValid validation && gtb stopLoss 0 && gtb takeProfit 0 then
    let result :=
      calculateRiskReward (CalculatorState.params state) stopLoss takeProfit in
    mkHooks (Some (mkRiskRewardCalculation result
                     (recommend (riskRewardRatio result)))) []
  else
    let newErrors := errors validation in
    let newErrors :=
      if leb stopLoss 0 then push newErrors msg_stop_loss else newErrors in
    let newErrors :=
      if leb takeProfit 0 then push newErrors msg_take_profit else newErrors in
    let newErrors :=
      if leb takeProfit stopLoss then push newErrors msg_order_long
      else newErrors in
    let newErrors :=
      if leb stopLoss takeProfit && negb (CalculatorState.isLong state)
      then push newErrors msg_order_short else newErrors in
    mkHooks None newErrors.

End RiskRewardRatio.

(** A short position with the numbers of [avax_long]. *)
Definition avax_short : PositionParams :=
  mkPositionParams "AVAX" 1000 5 false 25.50.

(** ** The arithmetic functions as they run: binary64 *)

(** [Number.MAX_VALUE], the largest finite binary64 number.  In the exact
    reading a hypothesis [x <= MAX_VALUE] says of the program's number that
    it is neither NaN nor infinite. *)
Definition MAX_VALUE : Q := inject_Z ((2 ^ 53 - 1) * 2 ^ 971).

(** The calculators and the validator once more, operation for operation,
    over the primitive binary64 numbers: the same rounding, infinities,
    NaN and comparisons as the numbers of the program.  This is the reading
    that decides what the code returns on a given input. *)
Module Binary64.

Import Floats.
Local Open Scope float_scope.

(** An integer literal of the asset table as a number. *)
Definition of_Z (n : Z) : float := of_uint63 (Uint63.of_Z n).

Module FEE_STRUCTURE.

Definition swapFee : float := 0.0005.
Definition positionFee : float := 0.0001.
Definition liquidationFee : float := 0.02.
Definition borrowingFee : float := 0.0001.
Definition fundingRate : float := 0.0001.

End FEE_STRUCTURE.

Record PositionParams : Type := mkPositionParams {
  asset : string;
  collateral : float;
  leverage : float;
  isLong : bool;
  entryPrice : float
}.

Record LiquidationResult : Type := mkLiquidationResult {
  liquidationPrice : float;
  distanceToLiquidation : float;
  distancePercentage : float;
  marginRatio : float
}.

Record PnLResult : Type := mkPnLResult {
  pnl : float;
  pnlPercentage : float;
  roi : float;
  breakevenPrice : float
}.

Record FeeResult : Type := mkFeeResult {
  positionFee : float;
  borrowingFee : float;
  fundingFee : float;
  totalFees : float
}.

Record RiskRewardResult : Type := mkRiskRewardResult {
  riskRewardRatio : float;
  expectedValue : float;
  probabilityOfProfit : float;
  maxLoss : float;
  maxProfit : float
}.

Definition calculateLiquidationPrice (params : PositionParams)
  : outcome LiquidationResult :=
  let '(mkPositionParams asset collateral leverage isLong entryPrice) := params in
  match find_asset asset with
  | None => Thrown (unsupported_message asset)
  | Some assetConfig =>
      let positionSize := collateral * leverage in
      let marginRatio := 1 / leverage in
      let liquidationThreshold := 0.85 in
      let liquidationPrice :=
        if isLong
        then entryPrice * (1 - marginRatio * liquidationThreshold)
        else entryPrice * (1 + marginRatio * liquidationThreshold) in
      let distanceToLiquidation := abs (entryPrice - liquidationPrice) in
      let distancePercentage := (distanceToLiquidation / entryPrice) * 100 in
      Returned (mkLiquidationResult liquidationPrice distanceToLiquidation
                                    distancePercentage (marginRatio * 100))
  end.

Definition calculateTotalFees (params : PositionParams) (hours : float)
  : FeeResult :=
  let positionSize := collateral params * leverage params in
  let positionFee := positionSize * FEE_STRUCTURE.positionFee in
  let borrowingFee := positionSize * FEE_STRUCTURE.borrowingFee * hours in
  let fundingFee := positionSize * FEE_STRUCTURE.fundingRate * hours in
  let totalFees := positionFee + borrowingFee + fundingFee in
  mkFeeResult positionFee borrowingFee fundingFee totalFees.

Definition calculatePnL (params : PositionParams) (currentPrice : float)
  : PnLResult :=
  let '(mkPositionParams _ collateral leverage isLong entryPrice) := params in
  let positionSize := collateral * leverage in
  let priceChange := currentPrice - entryPrice in
  let priceChangePercentage := (priceChange / entryPrice) * 100 in
  let pnl :=
    if isLong
    then positionSize * (priceChangePercentage / 100)
    else positionSize * (- priceChangePercentage / 100) in
  let pnlPercentage :=
    if isLong
    then priceChangePercentage * leverage
    else - priceChangePercentage * leverage in
  let roi := (pnl / collateral) * 100 in
  let totalFees := totalFees (calculateTotalFees params 24) in
  let breakevenPnL := totalFees in
  let breakevenPriceChange := (breakevenPnL / positionSize) * 100 in
  let breakevenPrice :=
    if isLong
    then entryPrice * (1 + breakevenPriceChange / 100)
    else entryPrice * (1 - breakevenPriceChange / 100) in
  mkPnLResult pnl pnlPercentage roi breakevenPrice.

Definition calculateRiskReward (params : PositionParams)
    (stopLoss takeProfit : float) : RiskRewardResult :=
  let entryPrice := entryPrice params in
  let maxLoss :=
    if isLong params
    then abs (entryPrice - stopLoss)
    else abs (stopLoss - entryPrice) in
  let maxProfit :=
    if isLong params
    then abs (takeProfit - entryPrice)
    else abs (entryPrice - takeProfit) in
  let riskRewardRatio := maxProfit / maxLoss in
  let probabilityOfProfit := 1 / (1 + riskRewardRatio) in
  let expectedValue :=
    (maxProfit * probabilityOfProfit) - (maxLoss * (1 - probabilityOfProfit)) in
  mkRiskRewardResult riskRewardRatio expectedValue (probabilityOfProfit * 100)
                     maxLoss maxProfit.

Definition validatePosition (params : PositionParams) : ValidationResult :=
  let errors : list string := [] in
  let '(mkPositionParams asset collateral leverage _ entryPrice) := params in
  let errors :=
    if not_string asset then push errors msg_asset_required else errors in
  let errors :=
    if PrimFloat.leb collateral 0 then push errors msg_collateral else errors in
  let errors :=
    if PrimFloat.ltb leverage 1 || PrimFloat.ltb 50 leverage
    then push errors msg_leverage_range else errors in
  let errors :=
    if PrimFloat.leb entryPrice 0 then push errors msg_entry_price else errors in
  let assetConfig := find_asset asset in
  let errors :=
    match assetConfig with
    | Some assetConfig =>
        if PrimFloat.ltb (of_Z (maxLeverage assetConfig)) leverage
        then push errors (msg_max_leverage asset (maxLeverage assetConfig))
        else errors
    | None => errors
    end in
  mkValidationResult (Nat.eqb (List.length errors) 0) errors.

(** The scenario of the specification, long and short. *)
Definition avax_long : PositionParams :=
  mkPositionParams "AVAX" 1000 5 true 25.50.

Definition avax_short : PositionParams :=
  mkPositionParams "AVAX" 1000 5 false 25.50.

(** A valid long position entered at the smallest positive number. *)
Definition tiny_entry_long : PositionParams :=
  mkPositionParams "AVAX" 1 50 true 5e-324.



(** A position whose size is beyond the largest finite number. *)
Definition huge_position : PositionParams :=
  mkPositionParams "AVAX" 1e308 50 true 25.50.

(** A position whose three numbers are NaN. *)
Definition nan_position : PositionParams :=
  mkPositionParams "AVAX" nan nan true nan.

End Binary64.

(** ** Evaluation on the scenarios of the specification

    In the exact reading; what the binary64 run returns on the same inputs
    is in [Binary64Facts]. *)

Definition avax_long : PositionParams :=
  mkPositionParams "AVAX" 1000 5 true 25.50.

(** A well-formed position on a symbol the table does not list. *)
Definition doge_long : PositionParams :=
  mkPositionParams "DOGE" 1000 5 true 10.

(** Leverage 0 and collateral 0 at once; leverage 60 on a listed asset. *)
Definition avax_zero_zero : PositionParams :=
  mkPositionParams "AVAX" 0 0 true 25.50.

Definition btc_short_60 : PositionParams :=
  mkPositionParams "BTC" 100 60 false 30000.


Definition doge_like_avax : PositionParams :=
  mkPositionParams "DOGE" 1000 5 true 25.50.

(** A long position entered at 100, with a stop at 90 and a target at 110. *)
Definition long_at_100 : PositionParams :=
  mkPositionParams "AVAX" 1000 5 true 100.

Example liquidation_avax_long :
  exists r, calculateLiquidationPrice avax_long = Returned r /\
            liquidationPrice r == 21.165 /\
            distanceToLiquidation r == 4.335 /\
            distancePercentage r == 17 /\
            marginRatio r == 20.
Proof. eexists; split; [reflexivity|]. repeat split. Qed.

Example pnl_avax_long :
  let r := calculatePnL avax_long 28.05 in
  pnl r == 500 /\ pnlPercentage r == 50 /\ roi r == 50.
Proof. repeat split. Qed.

Example fees_avax_long :
  let r := calculateTotalFees avax_long 24 in
  positionFee r == 0.5 /\ borrowingFee r == 12 /\ fundingFee r == 12 /\
  totalFees r == 24.5.
Proof. repeat split. Qed.

Example safe_leverage_avax_moderate :
  calculateSafeLeverage "AVAX" 0.85 Moderate == 12.
Proof. reflexivity. Qed.

Example validate_avax_long :
  validatePosition avax_long = mkValidationResult true [].
Proof. reflexivity. Qed.

Example validate_everything_wrong :
  validatePosition (mkPositionParams "" 0 60 true 0) =
  mkValidationResult false
    [msg_asset_required; msg_collateral; msg_leverage_range; msg_entry_price].
Proof. reflexivity. Qed.

Example validate_btc_leverage_60 :
  validatePosition btc_short_60 =
  mkValidationResult false
    [msg_leverage_range; "Maximum leverage for BTC is 50x"%string].
Proof. reflexivity. Qed.

(** ** Comparisons *)

Lemma leb_spec (a b : Q) : leb a b = true <-> a <= b.
Proof. unfold leb. apply Qle_bool_iff. Qed.

Lemma ltb_spec (a b : Q) : ltb a b = true <-> a < b.
Proof.
  unfold ltb. rewrite negb_true_iff. split.
  - intros H. apply Qnot_le_lt. intros Hle.
    apply Qle_bool_iff in Hle. congruence.
  - intros H. destruct (Qle_bool b a) eqn:E; [|reflexivity].
    apply Qle_bool_iff in E. exfalso. apply (Qlt_not_le _ _ H E).
Qed.

Lemma gtb_spec (a b : Q) : gtb a b = true <-> b < a.
Proof. unfold gtb. apply ltb_spec. Qed.

Lemma leb_reflect (a b : Q) : reflect (a <= b) (leb a b).
Proof. apply iff_reflect. symmetry. apply leb_spec. Qed.

Lemma ltb_reflect (a b : Q) : reflect (a < b) (ltb a b).
Proof. apply iff_reflect. symmetry. apply ltb_spec. Qed.

Lemma gtb_reflect (a b : Q) : reflect (b < a) (gtb a b).
Proof. apply iff_reflect. symmetry. apply gtb_spec. Qed.

Lemma not_string_spec (s : string) : not_string s = true <-> s = ""%string.
Proof. destruct s; simpl; split; congruence. Qed.

(** ** The asset table *)

Lemma find_asset_None (sym : string) :
  find_asset sym = None <-> ~ In sym supported_symbols.
Proof.
  unfold find_asset, supported_symbols.
  induction SUPPORTED_ASSETS as [|a l IH]; simpl.
  - tauto.
  - destruct (String.eqb_spec (symbol a) sym) as [E|E].
    + split; [discriminate | intros H; exfalso; apply H; now left].
    + rewrite IH. tauto.
Qed.

Lemma find_asset_Some (sym : string) (cfg : Asset) :
  find_asset sym = Some cfg -> In cfg SUPPORTED_ASSETS /\ symbol cfg = sym.
Proof.
  unfold find_asset. intros H. apply find_some in H.
  destruct H as [Hin Heq]. apply String.eqb_eq in Heq. now split.
Qed.

Lemma find_asset_supported (sym : string) :
  In sym supported_symbols -> exists cfg, find_asset sym = Some cfg.
Proof.
  intros Hin. destruct (find_asset sym) as [cfg|] eqn:E.
  - now exists cfg.
  - apply find_asset_None in E. contradiction.
Qed.

Lemma SUPPORTED_ASSETS_maxLeverage :
  Forall (fun a => maxLeverage a = 50%Z) SUPPORTED_ASSETS.
Proof. repeat constructor. Qed.

Lemma find_asset_maxLeverage (sym : string) (cfg : Asset) :
  find_asset sym = Some cfg -> maxLeverage cfg = 50%Z.
Proof.
  intros H. apply find_asset_Some in H. destruct H as [Hin _].
  pose proof SUPPORTED_ASSETS_maxLeverage as HF.
  rewrite Forall_forall in HF. now apply HF.
Qed.

(** ** The validator *)

(** The array of errors, piece by piece: each check contributes its
    message or nothing, in the order of the source. *)
Lemma In_if_singleton (b : bool) (m e : string) :
  In e (if b then [m] else []) <-> b = true /\ e = m.
Proof.
  destruct b; simpl; split.
  - intros [H|[]]. now split.
  - intros [_ H]. now left.
  - intros [].
  - intros [H _]. discriminate.
Qed.

Lemma validatePosition_errors_app (p : PositionParams) :
  errors (validatePosition p) =
  (if not_string (asset p) then [msg_asset_required] else []) ++
  (if leb (collateral p) 0 then [msg_collateral] else []) ++
  (if ltb (leverage p) 1 || gtb (leverage p) 50
   then [msg_leverage_range] else []) ++
  (if leb (entryPrice p) 0 then [msg_entry_price] else []) ++
  match find_asset (asset p) with
  | Some cfg =>
      if gtb (leverage p) (inject_Z (maxLeverage cfg))
      then [msg_max_leverage (asset p) (maxLeverage cfg)] else []
  | None => []
  end.
Proof.
  destruct p as [a c l d ep]. unfold validatePosition, push. simpl.
  destruct (not_string a), (leb c 0), (ltb l 1 || gtb l 50), (leb ep 0);
    destruct (find_asset a) as [cfg|];
    try destruct (gtb l (inject_Z (maxLeverage cfg))); reflexivity.
Qed.

Lemma validatePosition_isValid (p : PositionParams) :
  isValid (validatePosition p) = true <-> errors (validatePosition p) = [].
Proof.
  destruct p as [a c l d ep]. unfold validatePosition. simpl.
  rewrite Nat.eqb_eq. apply length_zero_iff_nil.
Qed.

(** Which messages the validator returns, and why. *)
Lemma validatePosition_errors (p : PositionParams) (e : string) :
  In e (errors (validatePosition p)) <->
  (asset p = ""%string /\ e = msg_asset_required) \/
  (collateral p <= 0 /\ e = msg_collateral) \/
  ((leverage p < 1 \/ 50 < leverage p) /\ e = msg_leverage_range) \/
  (entryPrice p <= 0 /\ e = msg_entry_price) \/
  (exists cfg, find_asset (asset p) = Some cfg /\
               inject_Z (maxLeverage cfg) < leverage p /\
               e = msg_max_leverage (asset p) (maxLeverage cfg)).
Proof.
  rewrite validatePosition_errors_app.
  rewrite !in_app_iff, !In_if_singleton.
  rewrite not_string_spec, !leb_spec, orb_true_iff, ltb_spec, gtb_spec.
  assert (Hlast :
    In e match find_asset (asset p) with
         | Some cfg =>
             if gtb (leverage p) (inject_Z (maxLeverage cfg))
             then [msg_max_leverage (asset p) (maxLeverage cfg)] else []
         | None => []
         end <->
    exists cfg, find_asset (asset p) = Some cfg /\
                inject_Z (maxLeverage cfg) < leverage p /\
                e = msg_max_leverage (asset p) (maxLeverage cfg)).
  { destruct (find_asset (asset p)) as [cfg|].
    - rewrite In_if_singleton, gtb_spec. split.
      + intros [H1 H2]. exists cfg. auto.
      + intros (cfg' & H0 & H1 & H2). injection H0 as <-. auto.
    - simpl. split; [intros [] | intros (cfg' & H0 & _); discriminate]. }
  rewrite Hlast. reflexivity.
Qed.

Lemma validatePosition_invalid (p : PositionParams) (e : string) :
  In e (errors (validatePosition p)) -> isValid (validatePosition p) = false.
Proof.
  intros Hin. destruct (isValid (validatePosition p)) eqn:E; [|reflexivity].
  apply validatePosition_isValid in E. rewrite E in Hin. destruct Hin.
Qed.

Lemma prefix_app (s t : string) : String.prefix s (s ++ t) = true.
Proof.
  induction s as [|c s IH]; simpl.
  - now destruct t.
  - destruct (Ascii.ascii_dec c c) as [_|N]; [exact IH | now destruct N].
Qed.

Lemma msg_max_leverage_prefixed (sym : string) (max : Z) :
  String.prefix msg_max_leverage_prefix (msg_max_leverage sym max) = true.
Proof. unfold msg_max_leverage. apply prefix_app. Qed.

(** C1 (as stated, refuted): [doge_long] names a symbol that is not in the
    asset table and has collateral, leverage and entry price in range, yet
    the validator accepts it and returns no error at all. *)
Lemma validatePosition_accepts_unlisted_symbol :
  ~ In (asset doge_long) supported_symbols /\
  isValid (validatePosition doge_long) = true /\
  errors (validatePosition doge_long) = [].
Proof.
  split; [|split; reflexivity].
  apply find_asset_None. reflexivity.
Qed.

(** C1 (amended): for a position whose symbol is not in the asset table,
    the validator reports the symbol only when it is the empty string
    ([isValid = false] and the errors contain "Asset is required").  A
    non-empty unlisted symbol adds no error: every returned error is the
    collateral, the leverage-range or the entry-price message, and with
    these three in range the result is [isValid = true] with no errors. *)
Theorem validatePosition_unlisted_symbol (p : PositionParams) :
  ~ In (asset p) supported_symbols ->
  (asset p = ""%string ->
   isValid (validatePosition p) = false /\
   In msg_asset_required (errors (validatePosition p))) /\
  (asset p <> ""%string ->
   (forall e, In e (errors (validatePosition p)) ->
              e = msg_collateral \/ e = msg_leverage_range \/
              e = msg_entry_price) /\
   (0 < collateral p -> 1 <= leverage p <= 50 -> 0 < entryPrice p ->
    validatePosition p = mkValidationResult true [])).
Proof.
  intros Hnot. apply find_asset_None in Hnot. split.
  - intros Hempty.
    assert (Hin : In msg_asset_required (errors (validatePosition p))).
    { apply validatePosition_errors. left. now split. }
    split; [eapply validatePosition_invalid; exact Hin | exact Hin].
  - intros Hne.
    assert (Honly : forall e, In e (errors (validatePosition p)) ->
              e = msg_collateral \/ e = msg_leverage_range \/
              e = msg_entry_price).
    { intros e He. apply validatePosition_errors in He.
      destruct He as [[H _]|[[_ H]|[[_ H]|[[_ H]|(cfg & H & _)]]]]; auto.
      - contradiction.
      - congruence. }
    split; [exact Honly|].
    intros Hc [Hl1 Hl2] He.
    assert (Hnil : errors (validatePosition p) = []).
    { destruct (errors (validatePosition p)) as [|e l] eqn:E; [reflexivity|].
      exfalso.
      assert (Hin : In e (errors (validatePosition p))) by (rewrite E; now left).
      apply validatePosition_errors in Hin.
      destruct Hin as [[H _]|[[H _]|[[H _]|[[H _]|(cfg & H & _)]]]].
      + contradiction.
      + apply (Qlt_not_le _ _ Hc H).
      + destruct H as [H|H]; [apply (Qlt_not_le _ _ H Hl1)
                             | apply (Qlt_not_le _ _ H Hl2)].
      + apply (Qlt_not_le _ _ He H).
      + congruence. }
    pose proof (proj2 (validatePosition_isValid p) Hnil) as Hv.
    destruct (validatePosition p) as [v es]. simpl in *. now subst.
Qed.

Lemma validatePosition_unlisted_symbol_witness :
  ~ In (asset doge_long) supported_symbols /\
  (asset doge_long <> ""%string /\ 0 < collateral doge_long /\
   1 <= leverage doge_long <= 50 /\ 0 < entryPrice doge_long) /\
  validatePosition doge_long = mkValidationResult true [].
Proof.
  assert (Hnot : ~ In (asset doge_long) supported_symbols).
  { apply find_asset_None. reflexivity. }
  assert (Hne : asset doge_long <> ""%string) by discriminate.
  assert (Hc : 0 < collateral doge_long) by reflexivity.
  assert (Hl : 1 <= leverage doge_long <= 50) by (split; discriminate).
  assert (He : 0 < entryPrice doge_long) by reflexivity.
  split; [exact Hnot|]. split; [auto|].
  exact (proj2 (proj2 (validatePosition_unlisted_symbol doge_long Hnot) Hne)
               Hc Hl He).
Defined.

(** C3: the validator is a total function (it has no throwing outcome) that
    collects every violation.  A leverage below 1 or above 50 gives
    [isValid = false] and the leverage message; a collateral of 0 or less
    gives [isValid = false] and the collateral message; when both hold, both
    messages are in the returned list. *)
Theorem validatePosition_accumulates (p : PositionParams) :
  ((leverage p < 1 \/ 50 < leverage p) ->
   isValid (validatePosition p) = false /\
   In msg_leverage_range (errors (validatePosition p))) /\
  (collateral p <= 0 ->
   isValid (validatePosition p) = false /\
   In msg_collateral (errors (validatePosition p))) /\
  ((leverage p < 1 \/ 50 < leverage p) -> collateral p <= 0 ->
   isValid (validatePosition p) = false /\
   In msg_leverage_range (errors (validatePosition p)) /\
   In msg_collateral (errors (validatePosition p))).
Proof.
  assert (Hlev : (leverage p < 1 \/ 50 < leverage p) ->
                 In msg_leverage_range (errors (validatePosition p))).
  { intros H. apply validatePosition_errors. right; right; left. now split. }
  assert (Hcol : collateral p <= 0 ->
                 In msg_collateral (errors (validatePosition p))).
  { intros H. apply validatePosition_errors. right; left. now split. }
  repeat split; eauto using validatePosition_invalid.
Qed.

Lemma validatePosition_accumulates_witness :
  (leverage avax_zero_zero < 1 \/ 50 < leverage avax_zero_zero) /\
  collateral avax_zero_zero <= 0 /\
  isValid (validatePosition avax_zero_zero) = false /\
  In msg_leverage_range (errors (validatePosition avax_zero_zero)) /\
  In msg_collateral (errors (validatePosition avax_zero_zero)).
Proof.
  assert (Hl : leverage avax_zero_zero < 1 \/ 50 < leverage avax_zero_zero)
    by (left; reflexivity).
  assert (Hc : collateral avax_zero_zero <= 0) by discriminate.
  split; [exact Hl|]. split; [exact Hc|].
  exact (proj2 (proj2 (validatePosition_accumulates avax_zero_zero)) Hl Hc).
Defined.

(** The two messages of C3 are different strings, and leverage 60 is
    reported like leverage 0. *)
Example leverage_and_collateral_messages_differ :
  msg_leverage_range <> msg_collateral.
Proof. discriminate. Qed.

Example validate_leverage_60 :
  validatePosition (mkPositionParams "AVAX" 1000 60 true 25.50) =
  mkValidationResult false
    [msg_leverage_range; "Maximum leverage for AVAX is 50x"%string].
Proof. reflexivity. Qed.

(** C10: every entry of the asset table has [maxLeverage = 50], hence
    whenever a message of the form "Maximum leverage for ... is ...x" is in
    the errors of the validator, the message "Leverage must be between 1x
    and 50x" is in the same list. *)
Theorem validatePosition_max_leverage_redundant (p : PositionParams) :
  Forall (fun a => maxLeverage a = 50%Z) SUPPORTED_ASSETS /\
  forall s : string,
    String.prefix msg_max_leverage_prefix s = true ->
    In s (errors (validatePosition p)) ->
    In msg_leverage_range (errors (validatePosition p)).
Proof.
  split; [exact SUPPORTED_ASSETS_maxLeverage|].
  intros s Hpre Hin. apply validatePosition_errors in Hin.
  destruct Hin as [[_ H]|[[_ H]|[[_ H]|[[_ H]|(cfg & Hf & Hlt & _)]]]];
    try (subst s; discriminate Hpre).
  apply validatePosition_errors. right; right; left. split; [|reflexivity].
  right. apply find_asset_maxLeverage in Hf. rewrite Hf in Hlt. exact Hlt.
Qed.

Lemma validatePosition_max_leverage_redundant_witness :
  String.prefix msg_max_leverage_prefix "Maximum leverage for BTC is 50x" = true /\
  In "Maximum leverage for BTC is 50x"%string
     (errors (validatePosition btc_short_60)) /\
  In msg_leverage_range (errors (validatePosition btc_short_60)).
Proof.
  assert (Hpre : String.prefix msg_max_leverage_prefix
                               "Maximum leverage for BTC is 50x" = true)
    by reflexivity.
  assert (Hin : In "Maximum leverage for BTC is 50x"%string
                   (errors (validatePosition btc_short_60)))
    by (right; left; reflexivity).
  split; [exact Hpre|]. split; [exact Hin|].
  exact (proj2 (validatePosition_max_leverage_redundant btc_short_60) _ Hpre Hin).
Defined.

(** ** What the binary64 run returns *)

Module Binary64Facts.

Import Floats.
Import Binary64.
Local Open Scope float_scope.

(** The scenarios of the specification: the results are those of the exact
    reading up to the last places. *)
Example b64_liquidation_avax_long :
  calculateLiquidationPrice avax_long =
  Returned (mkLiquidationResult 21.165 4.335000000000001 17.000000000000004 20).
Proof. reflexivity. Qed.

Example b64_liquidation_avax_short :
  calculateLiquidationPrice avax_short =
  Returned (mkLiquidationResult 29.834999999999997 4.334999999999997
                                16.99999999999999 20).
Proof. reflexivity. Qed.

Example b64_fees_avax_long :
  calculateTotalFees avax_long 24 = mkFeeResult 0.5 12 12 24.5.
Proof. reflexivity. Qed.

Example b64_pnl_avax_long :
  calculatePnL avax_long 28.05 =
  mkPnLResult 500.00000000000017 50.000000000000014 50.00000000000002 25.62495.
Proof. reflexivity. Qed.

Example b64_riskReward_long_at_100 :
  calculateRiskReward (mkPositionParams "AVAX" 1000 5 true 100) 93 110 =
  mkRiskRewardResult 1.4285714285714286 (-8.881784197001252e-16)
                     41.17647058823529 7 10.
Proof. reflexivity. Qed.

(** No comparison with NaN holds, so no check of the validator fires. *)
Example b64_validate_nan_position :
  validatePosition nan_position = mkValidationResult true [].
Proof. reflexivity. Qed.

Example b64_validate_avax_long :
  validatePosition avax_long = mkValidationResult true [].
Proof. reflexivity. Qed.


(** The inequality that rounding keeps, at the same input. *)
Example liquidationPrice_at_most_entry_tiny :
  exists r, calculateLiquidationPrice tiny_entry_long = Returned r /\
            PrimFloat.leb (liquidationPrice r) (entryPrice tiny_entry_long)
              = true.
Proof. eexists. split; reflexivity. Qed.


(** C7 (as stated, refuted): [huge_position] has positive collateral and
    leverage 50, its position size overflows to infinity, and its total fee
    is NaN for 0 hours ([infinity * 0]) and infinity for 1 hour: the total
    for 0 hours is not at most the total for 1 hour. *)
Lemma totalFees_not_monotone_on_overflow :
  PrimFloat.ltb 0 (collateral huge_position) = true /\
  PrimFloat.leb 1 (leverage huge_position) = true /\
  PrimFloat.leb 0 0 = true /\ PrimFloat.leb 0 1 = true /\
  totalFees (calculateTotalFees huge_position 0) = nan /\
  totalFees (calculateTotalFees huge_position 1) = infinity /\
  PrimFloat.leb (totalFees (calculateTotalFees huge_position 0))
                (totalFees (calculateTotalFees huge_position 1)) = false.
Proof. repeat split; reflexivity. Qed.

End Binary64Facts.

(** ** The liquidation calculator *)

(** The closed form of the result for a listed asset, a positive entry
    price and a positive leverage, in the exact reading. *)
Lemma calculateLiquidationPrice_closed_form (p : PositionParams) :
  In (asset p) supported_symbols -> 0 < entryPrice p -> 0 < leverage p ->
  exists r, calculateLiquidationPrice p = Returned r /\
    liquidationPrice r ==
      (if isLong p then entryPrice p * (1 - 0.85 / leverage p)
       else entryPrice p * (1 + 0.85 / leverage p)) /\
    distanceToLiquidation r == entryPrice p * 0.85 / leverage p /\
    distancePercentage r == 85 / leverage p.
Proof.
  destruct p as [a c l d e].
  cbn [asset entryPrice leverage isLong]. intros Hin He Hl.
  destruct (find_asset_supported a Hin) as [cfg Hf].
  unfold calculateLiquidationPrice. rewrite Hf.
  eexists. split; [reflexivity|].
  cbn [liquidationPrice distanceToLiquidation distancePercentage].
  assert (Hl0 : ~ l == 0) by (intros E; rewrite E in Hl; discriminate).
  assert (He0 : ~ e == 0) by (intros E; rewrite E in He; discriminate).
  assert (Hm : 0 < / l) by (apply Qinv_lt_0_compat; exact Hl).
  assert (Hd : 0 < e * 0.85 / l).
  { unfold Qdiv. apply Qmult_lt_0_compat; [|exact Hm].
    apply Qmult_lt_0_compat; [exact He | reflexivity]. }
  destruct d.
  - assert (Hdiff : e - e * (1 - 1 / l * 0.85) == e * 0.85 / l)
      by (field; exact Hl0).
    split; [field; exact Hl0|].
    rewrite Hdiff, (Qabs_pos _ (Qlt_le_weak _ _ Hd)).
    split; [reflexivity | field; split; assumption].
  - assert (Hdiff : e - e * (1 + 1 / l * 0.85) == - (e * 0.85 / l))
      by (field; exact Hl0).
    split; [field; exact Hl0|].
    rewrite Hdiff, Qabs_opp, (Qabs_pos _ (Qlt_le_weak _ _ Hd)).
    split; [reflexivity | field; split; assumption].
Qed.

(** C4: the liquidation calculator throws "Asset ... not supported" exactly
    when the symbol of its argument is not in the asset table, and returns
    a result for every argument whose symbol is in the table. *)
Theorem calculateLiquidationPrice_throws_iff (p : PositionParams) :
  ((exists msg, calculateLiquidationPrice p = Thrown msg) <->
   ~ In (asset p) supported_symbols) /\
  (~ In (asset p) supported_symbols ->
   calculateLiquidationPrice p = Thrown (unsupported_message (asset p))) /\
  (In (asset p) supported_symbols ->
   exists r, calculateLiquidationPrice p = Returned r).
Proof.
  destruct p as [a c l d e]. cbn [asset].
  unfold calculateLiquidationPrice.
  destruct (find_asset a) as [cfg|] eqn:Hf.
  - assert (Hin : In a supported_symbols).
    { apply find_asset_Some in Hf. destruct Hf as [Hin <-].
      unfold supported_symbols. now apply in_map. }
    split; [split|split].
    + intros [msg H]. discriminate H.
    + intros H. contradiction.
    + intros H. contradiction.
    + intros _. eexists. reflexivity.
  - apply find_asset_None in Hf.
    split; [split|split].
    + intros _. exact Hf.
    + intros _. eexists. reflexivity.
    + intros _. reflexivity.
    + intros H. contradiction.
Qed.

Lemma calculateLiquidationPrice_throws_iff_witness :
  In (asset avax_long) supported_symbols /\
  ~ In (asset doge_long) supported_symbols /\
  (exists r, calculateLiquidationPrice avax_long = Returned r) /\
  calculateLiquidationPrice doge_long = Thrown "Asset DOGE not supported".
Proof.
  assert (Hin : In (asset avax_long) supported_symbols) by (left; reflexivity).
  assert (Hnot : ~ In (asset doge_long) supported_symbols).
  { apply find_asset_None. reflexivity. }
  split; [exact Hin|]. split; [exact Hnot|]. split.
  - exact (proj2 (proj2 (calculateLiquidationPrice_throws_iff avax_long)) Hin).
  - exact (proj1 (proj2 (calculateLiquidationPrice_throws_iff doge_long)) Hnot).
Defined.





(** ** Fees, profit and loss *)

(** C7 (amended): for a position with positive collateral, leverage at least
    1 and a finite position size ([collateral * leverage] at most the
    largest finite number), [totalFees] does not decrease when [hours] grows
    over finite [hours >= 0]; and, for every position, [positionFee] is the
    same for every value of [hours]. *)
Theorem totalFees_monotone_when_finite (p : PositionParams) :
  (0 < collateral p -> 1 <= leverage p ->
   collateral p * leverage p <= MAX_VALUE ->
   forall h1 h2 : Q, 0 <= h1 -> h1 <= h2 -> h2 <= MAX_VALUE ->
     totalFees (calculateTotalFees p h1) <= totalFees (calculateTotalFees p h2)) /\
  (forall h1 h2 : Q,
     positionFee (calculateTotalFees p h1) = positionFee (calculateTotalFees p h2)).
Proof.
  split; [|intros h1 h2; reflexivity].
  intros Hc Hl _ h1 h2 _ Hh _.
  assert (Hps : 0 < collateral p * leverage p).
  { apply Qmult_lt_0_compat; [exact Hc | lra]. }
  unfold calculateTotalFees. cbn [totalFees].
  unfold FEE_STRUCTURE.positionFee, FEE_STRUCTURE.borrowingFee,
         FEE_STRUCTURE.fundingRate.
  set (ps := collateral p * leverage p) in *.
  assert (Hd : 0 <= ps * (h2 - h1)).
  { apply Qmult_le_0_compat; [apply Qlt_le_weak; exact Hps | lra]. }
  lra.
Qed.

Lemma totalFees_monotone_when_finite_witness :
  (0 < collateral avax_long /\ 1 <= leverage avax_long /\
   collateral avax_long * leverage avax_long <= MAX_VALUE /\
   0 <= 1 /\ 1 <= 24 /\ 24 <= MAX_VALUE) /\
  totalFees (calculateTotalFees avax_long 1) <=
  totalFees (calculateTotalFees avax_long 24) /\
  positionFee (calculateTotalFees avax_long 1) =
  positionFee (calculateTotalFees avax_long 24).
Proof.
  assert (Hc : 0 < collateral avax_long) by reflexivity.
  assert (Hl : 1 <= leverage avax_long) by discriminate.
  assert (Hps : collateral avax_long * leverage avax_long <= MAX_VALUE)
    by (apply Qle_bool_iff; vm_compute; reflexivity).
  assert (H0 : 0 <= 1) by discriminate.
  assert (H1 : 1 <= 24) by discriminate.
  assert (H2 : 24 <= MAX_VALUE) by (apply Qle_bool_iff; vm_compute; reflexivity).
  split; [repeat split; assumption|]. split.
  - exact (proj1 (totalFees_monotone_when_finite avax_long)
                 Hc Hl Hps 1 24 H0 H1 H2).
  - exact (proj2 (totalFees_monotone_when_finite avax_long) 1 24).
Defined.

(** C8: for a position with positive collateral, leverage at least 1 and
    positive entry price, and for every current price, the breakeven price
    is [entryPrice * (1 + f / 100)] for a long position and
    [entryPrice * (1 - f / 100)] for a short one, where [f] is the total fee
    of 24 hours, [calculateTotalFees params 24], as a percentage of the
    position size. *)
Theorem breakevenPrice_uses_24h_fees (p : PositionParams) (currentPrice : Q) :
  0 < collateral p -> 1 <= leverage p -> 0 < entryPrice p ->
  breakevenPrice (calculatePnL p currentPrice) ==
  (if isLong p
   then entryPrice p *
        (1 + (totalFees (calculateTotalFees p 24) /
              (collateral p * leverage p) * 100) / 100)
   else entryPrice p *
        (1 - (totalFees (calculateTotalFees p 24) /
              (collateral p * leverage p) * 100) / 100)).
Proof.
  intros _ _ _. destruct p as [a c l d e].
  unfold calculatePnL. cbn [breakevenPrice isLong entryPrice collateral leverage].
  destruct d; reflexivity.
Qed.

Lemma breakevenPrice_uses_24h_fees_witness :
  (0 < collateral avax_long /\ 1 <= leverage avax_long /\
   0 < entryPrice avax_long) /\
  breakevenPrice (calculatePnL avax_long 28.05) ==
  entryPrice avax_long *
    (1 + (totalFees (calculateTotalFees avax_long 24) /
          (collateral avax_long * leverage avax_long) * 100) / 100).
Proof.
  assert (Hc : 0 < collateral avax_long) by reflexivity.
  assert (Hl : 1 <= leverage avax_long) by discriminate.
  assert (He : 0 < entryPrice avax_long) by reflexivity.
  split; [auto|].
  exact (breakevenPrice_uses_24h_fees avax_long 28.05 Hc Hl He).
Defined.

(** In the exact reading the 24-hour fee is 0.49% of the position size,
    whatever the position: the breakeven price is the entry price moved by
    0.49%. *)
Lemma breakevenPrice_closed_form (p : PositionParams) (currentPrice : Q) :
  0 < collateral p -> 1 <= leverage p ->
  breakevenPrice (calculatePnL p currentPrice) ==
  (if isLong p then entryPrice p * 1.0049 else entryPrice p * 0.9951).
Proof.
  intros Hc Hl.
  assert (Hps : 0 < collateral p * leverage p).
  { apply Qmult_lt_0_compat; [exact Hc|].
    eapply Qlt_le_trans; [|exact Hl]. reflexivity. }
  destruct p as [a c l d e].
  cbn [collateral leverage isLong entryPrice] in *.
  unfold calculatePnL, calculateTotalFees.
  cbn [breakevenPrice totalFees collateral leverage].
  unfold FEE_STRUCTURE.positionFee, FEE_STRUCTURE.borrowingFee,
         FEE_STRUCTURE.fundingRate.
  assert (Hc0 : ~ c == 0) by (intros E; lra).
  assert (Hl0 : ~ l == 0) by (intros E; lra).
  destruct d; field; split; assumption.
Qed.

Example breakeven_avax_long :
  breakevenPrice (calculatePnL avax_long 28.05) == 25.624950.
Proof. reflexivity. Qed.

(** C9: [calculatePnL] and [calculateTotalFees] are total functions that
    never read the asset symbol.  Two positions that agree on collateral,
    leverage, direction and entry price, whatever their symbols (listed or
    not), get the same [PnLResult] for the same current price and the same
    [FeeResult] for the same hours; with the same numbers as terms the
    records are equal. *)
Theorem pnl_and_fees_ignore_asset (p1 p2 : PositionParams) :
  (collateral p1 == collateral p2 -> leverage p1 == leverage p2 ->
   isLong p1 = isLong p2 -> entryPrice p1 == entryPrice p2 ->
   (forall currentPrice : Q,
      PnLResult_eq (calculatePnL p1 currentPrice) (calculatePnL p2 currentPrice)) /\
   (forall hours : Q,
      FeeResult_eq (calculateTotalFees p1 hours) (calculateTotalFees p2 hours))) /\
  (collateral p1 = collateral p2 -> leverage p1 = leverage p2 ->
   isLong p1 = isLong p2 -> entryPrice p1 = entryPrice p2 ->
   (forall currentPrice : Q,
      calculatePnL p1 currentPrice = calculatePnL p2 currentPrice) /\
   (forall hours : Q,
      calculateTotalFees p1 hours = calculateTotalFees p2 hours)).
Proof.
  destruct p1 as [a1 c1 l1 d1 e1], p2 as [a2 c2 l2 d2 e2].
  cbn [collateral leverage isLong entryPrice]. split.
  - intros Hc Hl Hd He. subst d2. split.
    + intros cur. unfold PnLResult_eq, calculatePnL, calculateTotalFees.
      cbn [pnl pnlPercentage roi breakevenPrice totalFees collateral leverage].
      destruct d1; repeat split; rewrite ?Hc, ?Hl, ?He; reflexivity.
    + intros h. unfold FeeResult_eq, calculateTotalFees.
      cbn [positionFee borrowingFee fundingFee totalFees collateral leverage].
      repeat split; rewrite ?Hc, ?Hl; reflexivity.
  - intros Hc Hl Hd He. subst c2 l2 d2 e2. split; reflexivity.
Qed.

Lemma pnl_and_fees_ignore_asset_witness :
  asset avax_long <> asset doge_like_avax /\
  ~ In (asset doge_like_avax) supported_symbols /\
  calculatePnL avax_long 28.05 = calculatePnL doge_like_avax 28.05 /\
  calculateTotalFees avax_long 24 = calculateTotalFees doge_like_avax 24.
Proof.
  split; [discriminate|]. split; [apply find_asset_None; reflexivity|].
  pose proof (proj2 (pnl_and_fees_ignore_asset avax_long doge_like_avax)
                    eq_refl eq_refl eq_refl eq_refl) as [Hp Hf].
  split; [apply Hp | apply Hf].
Defined.

Example pnl_unlisted_symbol :
  pnl (calculatePnL doge_like_avax 28.05) == 500 /\
  totalFees (calculateTotalFees doge_like_avax 24) == 24.5.
Proof. split; reflexivity. Qed.

(** ** Risk and reward *)

(** C2 (as stated, refuted): with entry 100, stop 90 and target 110 the
    maximal loss is 10, the ratio is 1, and the returned
    [probabilityOfProfit] is 50, not [1 / (1 + 1)]. *)
Lemma probabilityOfProfit_not_a_fraction :
  ~ maxLoss (calculateRiskReward long_at_100 90 110) == 0 /\
  riskRewardRatio (calculateRiskReward long_at_100 90 110) == 1 /\
  probabilityOfProfit (calculateRiskReward long_at_100 90 110) == 50 /\
  ~ probabilityOfProfit (calculateRiskReward long_at_100 90 110) ==
    1 / (1 + riskRewardRatio (calculateRiskReward long_at_100 90 110)).
Proof.
  split; [discriminate|]. split; [reflexivity|]. split; [reflexivity|].
  discriminate.
Qed.

(** C2 (amended): when [maxLoss] is not zero, the returned
    [probabilityOfProfit] is the heuristic as a percentage,
    [100 * (1 / (1 + riskRewardRatio))], where [riskRewardRatio] is the
    returned ratio [maxProfit / maxLoss]. *)
Theorem probabilityOfProfit_is_percentage
    (p : PositionParams) (stopLoss takeProfit : Q) :
  ~ maxLoss (calculateRiskReward p stopLoss takeProfit) == 0 ->
  riskRewardRatio (calculateRiskReward p stopLoss takeProfit) ==
    maxProfit (calculateRiskReward p stopLoss takeProfit) /
    maxLoss (calculateRiskReward p stopLoss takeProfit) /\
  probabilityOfProfit (calculateRiskReward p stopLoss takeProfit) ==
    100 * (1 / (1 + riskRewardRatio (calculateRiskReward p stopLoss takeProfit))).
Proof.
  intros _. unfold calculateRiskReward.
  cbn [riskRewardRatio maxProfit maxLoss probabilityOfProfit].
  split; [reflexivity|]. apply Qmult_comm.
Qed.

Lemma probabilityOfProfit_is_percentage_witness :
  ~ maxLoss (calculateRiskReward long_at_100 90 110) == 0 /\
  probabilityOfProfit (calculateRiskReward long_at_100 90 110) ==
    100 * (1 / (1 + riskRewardRatio (calculateRiskReward long_at_100 90 110))).
Proof.
  assert (H : ~ maxLoss (calculateRiskReward long_at_100 90 110) == 0)
    by discriminate.
  split; [exact H|].
  exact (proj2 (probabilityOfProfit_is_percentage long_at_100 90 110 H)).
Defined.

(** In terms of the two distances, in the exact reading: the percentage is
    the share of the loss distance in the sum of both distances. *)
Lemma probabilityOfProfit_closed_form
    (p : PositionParams) (stopLoss takeProfit : Q) :
  ~ maxLoss (calculateRiskReward p stopLoss takeProfit) == 0 ->
  probabilityOfProfit (calculateRiskReward p stopLoss takeProfit) ==
    100 * maxLoss (calculateRiskReward p stopLoss takeProfit) /
    (maxLoss (calculateRiskReward p stopLoss takeProfit) +
     maxProfit (calculateRiskReward p stopLoss takeProfit)).
Proof.
  unfold calculateRiskReward.
  cbn [maxProfit maxLoss probabilityOfProfit].
  set (ml := if isLong p then Qabs (entryPrice p - stopLoss)
             else Qabs (stopLoss - entryPrice p)).
  set (mp := if isLong p then Qabs (takeProfit - entryPrice p)
             else Qabs (entryPrice p - takeProfit)).
  intros Hml.
  assert (Hml0 : 0 <= ml) by (unfold ml; destruct (isLong p); apply Qabs_nonneg).
  assert (Hmp0 : 0 <= mp) by (unfold mp; destruct (isLong p); apply Qabs_nonneg).
  assert (Hpos : 0 < ml).
  { destruct (Qlt_le_dec 0 ml) as [H|H]; [exact H|].
    exfalso. apply Hml. apply Qle_antisym; assumption. }
  assert (Hsum : ~ ml + mp == 0) by (intros E; lra).
  field. split; assumption.
Qed.

(** ** Profit and loss: further properties *)

Lemma Qpos_neq0 (x : Q) : 0 < x -> ~ x == 0.
Proof. intros H E. rewrite E in H. discriminate H. Qed.

(** The three figures of [calculatePnL] as functions of the relative price
    move [(currentPrice - entryPrice) / entryPrice], signed by direction,
    in the exact reading. *)
Lemma calculatePnL_closed_form (p : PositionParams) (currentPrice : Q) :
  ~ collateral p == 0 -> ~ entryPrice p == 0 ->
  let move := (if isLong p then 1 else -1) *
              ((currentPrice - entryPrice p) / entryPrice p) in
  pnl (calculatePnL p currentPrice) == collateral p * leverage p * move /\
  pnlPercentage (calculatePnL p currentPrice) == 100 * leverage p * move /\
  roi (calculatePnL p currentPrice) == 100 * leverage p * move.
Proof.
  destruct p as [a c l d e]. cbn [collateral leverage isLong entryPrice].
  intros Hc He. unfold calculatePnL. cbn [pnl pnlPercentage roi].
  destruct d; repeat split; field; auto.
Qed.

(** The sign of the three figures is the sign of the signed price move. *)
Lemma calculatePnL_sign (p : PositionParams) (currentPrice : Q) :
  0 < collateral p -> 0 < leverage p -> 0 < entryPrice p ->
  let move := (if isLong p then 1 else -1) * (currentPrice - entryPrice p) in
  (0 <= move ->
   0 <= pnl (calculatePnL p currentPrice) /\
   0 <= pnlPercentage (calculatePnL p currentPrice) /\
   0 <= roi (calculatePnL p currentPrice)) /\
  (move <= 0 ->
   pnl (calculatePnL p currentPrice) <= 0 /\
   pnlPercentage (calculatePnL p currentPrice) <= 0 /\
   roi (calculatePnL p currentPrice) <= 0).
Proof.
  intros Hc Hl He move.
  destruct (calculatePnL_closed_form p currentPrice
              (Qpos_neq0 _ Hc) (Qpos_neq0 _ He)) as (Hpnl & Hpct & Hroi).
  assert (Hmove : (if isLong p then 1 else -1) *
                  ((currentPrice - entryPrice p) / entryPrice p) ==
                  move * / entryPrice p).
  { unfold move, Qdiv. ring. }
  rewrite Hmove in Hpnl, Hpct, Hroi.
  assert (Hinv : 0 < / entryPrice p) by (apply Qinv_lt_0_compat; exact He).
  assert (Hps : 0 < collateral p * leverage p)
    by (apply Qmult_lt_0_compat; assumption).
  rewrite Hpnl, Hpct, Hroi.
  split; intros Hm.
  - assert (H : 0 <= move * / entryPrice p)
      by (apply Qmult_le_0_compat; lra).
    repeat split; apply Qmult_le_0_compat; lra.
  - assert (H : 0 <= (- move) * / entryPrice p)
      by (apply Qmult_le_0_compat; lra).
    assert (A : 0 <= collateral p * leverage p * (- move * / entryPrice p))
      by (apply Qmult_le_0_compat; lra).
    assert (B : 0 <= 100 * leverage p * (- move * / entryPrice p))
      by (apply Qmult_le_0_compat; lra).
    repeat split; lra.
Qed.

(** X1: a position never shows a result against its direction.  With
    positive collateral, leverage at least 1, positive entry price and
    non-negative current price, all finite, a long position has
    non-negative profit, profit percentage and return when the current
    price is at or above the entry price and non-positive ones when it is
    at or below; a short position the other way round; at the entry price
    itself all three are zero. *)
Theorem pnl_never_against_direction (p : PositionParams) (currentPrice : Q) :
  0 < collateral p -> 1 <= leverage p ->
  collateral p * leverage p <= MAX_VALUE ->
  0 < entryPrice p -> entryPrice p <= MAX_VALUE ->
  0 <= currentPrice -> currentPrice <= MAX_VALUE ->
  ((if isLong p then entryPrice p <= currentPrice
    else currentPrice <= entryPrice p) ->
   0 <= pnl (calculatePnL p currentPrice) /\
   0 <= pnlPercentage (calculatePnL p currentPrice) /\
   0 <= roi (calculatePnL p currentPrice)) /\
  ((if isLong p then currentPrice <= entryPrice p
    else entryPrice p <= currentPrice) ->
   pnl (calculatePnL p currentPrice) <= 0 /\
   pnlPercentage (calculatePnL p currentPrice) <= 0 /\
   roi (calculatePnL p currentPrice) <= 0) /\
  (currentPrice == entryPrice p ->
   pnl (calculatePnL p currentPrice) == 0 /\
   pnlPercentage (calculatePnL p currentPrice) == 0 /\
   roi (calculatePnL p currentPrice) == 0).
Proof.
  intros Hc Hl1 _ He _ _ _.
  assert (Hl : 0 < leverage p) by lra.
  destruct (calculatePnL_sign p currentPrice Hc Hl He) as [Hup Hdown].
  split; [|split].
  - intros H. apply Hup. destruct (isLong p); lra.
  - intros H. apply Hdown. destruct (isLong p); lra.
  - intros Heq.
    assert (H0 : 0 <= (if isLong p then 1 else -1) * (currentPrice - entryPrice p))
      by (destruct (isLong p); lra).
    assert (H1 : (if isLong p then 1 else -1) * (currentPrice - entryPrice p) <= 0)
      by (destruct (isLong p); lra).
    destruct (Hup H0) as (A1 & A2 & A3). destruct (Hdown H1) as (B1 & B2 & B3).
    repeat split; apply Qle_antisym; assumption.
Qed.

Lemma pnl_never_against_direction_witness :
  (0 < collateral avax_short /\ 1 <= leverage avax_short /\
   collateral avax_short * leverage avax_short <= MAX_VALUE /\
   0 < entryPrice avax_short /\ entryPrice avax_short <= MAX_VALUE /\
   0 <= 20 /\ 20 <= MAX_VALUE /\ 20 <= entryPrice avax_short) /\
  0 <= pnl (calculatePnL avax_short 20).
Proof.
  assert (Hc : 0 < collateral avax_short) by reflexivity.
  assert (Hl : 1 <= leverage avax_short) by discriminate.
  assert (Hps : collateral avax_short * leverage avax_short <= MAX_VALUE)
    by (apply Qle_bool_iff; vm_compute; reflexivity).
  assert (He : 0 < entryPrice avax_short) by reflexivity.
  assert (Hem : entryPrice avax_short <= MAX_VALUE)
    by (apply Qle_bool_iff; vm_compute; reflexivity).
  assert (H0 : 0 <= 20) by discriminate.
  assert (Hcm : 20 <= MAX_VALUE) by (apply Qle_bool_iff; vm_compute; reflexivity).
  assert (Hdir : 20 <= entryPrice avax_short) by discriminate.
  split; [repeat split; assumption|].
  exact (proj1 (proj1 (pnl_never_against_direction avax_short 20
                         Hc Hl Hps He Hem H0 Hcm) Hdir)).
Defined.

(** X3: two positions that differ only in direction have opposite results.
    With positive collateral, leverage at least 1, positive entry price and
    non-negative current price, all finite, the profit, the profit
    percentage and the return of the short position are the negatives of
    those of the long one. *)
Theorem long_and_short_are_opposite (p1 p2 : PositionParams) (currentPrice : Q) :
  collateral p1 == collateral p2 -> leverage p1 == leverage p2 ->
  entryPrice p1 == entryPrice p2 ->
  isLong p1 = true -> isLong p2 = false ->
  0 < collateral p1 -> 1 <= leverage p1 ->
  collateral p1 * leverage p1 <= MAX_VALUE ->
  0 < entryPrice p1 -> entryPrice p1 <= MAX_VALUE ->
  0 <= currentPrice -> currentPrice <= MAX_VALUE ->
  pnl (calculatePnL p2 currentPrice) == - pnl (calculatePnL p1 currentPrice) /\
  pnlPercentage (calculatePnL p2 currentPrice) ==
    - pnlPercentage (calculatePnL p1 currentPrice) /\
  roi (calculatePnL p2 currentPrice) == - roi (calculatePnL p1 currentPrice).
Proof.
  destruct p1 as [a1 c1 l1 d1 e1], p2 as [a2 c2 l2 d2 e2].
  cbn [collateral leverage isLong entryPrice].
  intros Hc Hl He -> -> _ _ _ _ _ _ _.
  unfold calculatePnL.
  cbn [pnl pnlPercentage roi].
  rewrite <- Hc, <- Hl, <- He.
  unfold Qdiv. repeat split; ring.
Qed.

Lemma long_and_short_are_opposite_witness :
  (0 < collateral avax_long /\ 1 <= leverage avax_long /\
   collateral avax_long * leverage avax_long <= MAX_VALUE /\
   0 < entryPrice avax_long /\ entryPrice avax_long <= MAX_VALUE /\
   0 <= 28.05 /\ 28.05 <= MAX_VALUE) /\
  pnl (calculatePnL avax_short 28.05) == - pnl (calculatePnL avax_long 28.05).
Proof.
  assert (Hc : 0 < collateral avax_long) by reflexivity.
  assert (Hl : 1 <= leverage avax_long) by discriminate.
  assert (Hps : collateral avax_long * leverage avax_long <= MAX_VALUE)
    by (apply Qle_bool_iff; vm_compute; reflexivity).
  assert (He : 0 < entryPrice avax_long) by reflexivity.
  assert (Hem : entryPrice avax_long <= MAX_VALUE)
    by (apply Qle_bool_iff; vm_compute; reflexivity).
  assert (H0 : 0 <= 28.05) by discriminate.
  assert (Hcm : 28.05 <= MAX_VALUE)
    by (apply Qle_bool_iff; vm_compute; reflexivity).
  split; [repeat split; assumption|].
  refine (proj1 (long_and_short_are_opposite avax_long avax_short 28.05
                   _ _ _ _ _ Hc Hl Hps He Hem H0 Hcm)); reflexivity.
Defined.

(** X6: fees never put the breakeven price on the wrong side of the entry
    price.  With positive collateral, leverage at least 1 and positive entry
    price, all finite, the breakeven price of a long position is at or
    above its entry price and that of a short position at or below it,
    whatever the current price. *)
Theorem breakevenPrice_on_the_fee_side (p : PositionParams) (currentPrice : Q) :
  0 < collateral p -> 1 <= leverage p ->
  collateral p * leverage p <= MAX_VALUE ->
  0 < entryPrice p -> entryPrice p <= MAX_VALUE ->
  (isLong p = true ->
   entryPrice p <= breakevenPrice (calculatePnL p currentPrice)) /\
  (isLong p = false ->
   breakevenPrice (calculatePnL p currentPrice) <= entryPrice p).
Proof.
  intros Hc Hl _ He _.
  pose proof (breakevenPrice_closed_form p currentPrice Hc Hl) as Hbe.
  split; intros Hd; rewrite Hd in Hbe; rewrite Hbe; lra.
Qed.

Lemma breakevenPrice_on_the_fee_side_witness :
  (0 < collateral avax_short /\ 1 <= leverage avax_short /\
   collateral avax_short * leverage avax_short <= MAX_VALUE /\
   0 < entryPrice avax_short /\ entryPrice avax_short <= MAX_VALUE) /\
  breakevenPrice (calculatePnL avax_short 20) <= entryPrice avax_short.
Proof.
  assert (Hc : 0 < collateral avax_short) by reflexivity.
  assert (Hl : 1 <= leverage avax_short) by discriminate.
  assert (Hps : collateral avax_short * leverage avax_short <= MAX_VALUE)
    by (apply Qle_bool_iff; vm_compute; reflexivity).
  assert (He : 0 < entryPrice avax_short) by reflexivity.
  assert (Hem : entryPrice avax_short <= MAX_VALUE)
    by (apply Qle_bool_iff; vm_compute; reflexivity).
  split; [repeat split; assumption|].
  exact (proj2 (breakevenPrice_on_the_fee_side avax_short 20 Hc Hl Hps He Hem)
               eq_refl).
Defined.

(** ** Risk and reward: further properties *)

Lemma Qabs_zero (x : Q) : Qabs x == 0 -> x == 0.
Proof.
  intros H. destruct (Qlt_le_dec x 0) as [Hx|Hx].
  - rewrite (Qabs_neg _ (Qlt_le_weak _ _ Hx)) in H. lra.
  - rewrite (Qabs_pos _ Hx) in H. exact H.
Qed.

(** The two distances, whatever the direction flag. *)
Lemma calculateRiskReward_distances
    (p : PositionParams) (stopLoss takeProfit : Q) :
  maxLoss (calculateRiskReward p stopLoss takeProfit) ==
    Qabs (entryPrice p - stopLoss) /\
  maxProfit (calculateRiskReward p stopLoss takeProfit) ==
    Qabs (takeProfit - entryPrice p).
Proof.
  unfold calculateRiskReward. cbn [maxLoss maxProfit].
  destruct (isLong p); split; try reflexivity;
    rewrite Qabs_Qminus; reflexivity.
Qed.

Lemma maxLoss_positive (p : PositionParams) (stopLoss takeProfit : Q) :
  ~ stopLoss == entryPrice p ->
  0 < maxLoss (calculateRiskReward p stopLoss takeProfit).
Proof.
  intros Hne.
  destruct (calculateRiskReward_distances p stopLoss takeProfit) as [Hml _].
  rewrite Hml.
  destruct (Qlt_le_dec 0 (Qabs (entryPrice p - stopLoss))) as [H|H]; [exact H|].
  exfalso. apply Hne.
  assert (E : Qabs (entryPrice p - stopLoss) == 0).
  { apply Qle_antisym; [exact H | apply Qabs_nonneg]. }
  apply Qabs_zero in E. lra.
Qed.

Lemma maxProfit_nonneg (p : PositionParams) (stopLoss takeProfit : Q) :
  0 <= maxProfit (calculateRiskReward p stopLoss takeProfit).
Proof.
  destruct (calculateRiskReward_distances p stopLoss takeProfit) as [_ Hmp].
  rewrite Hmp. apply Qabs_nonneg.
Qed.

(** X8: the risk/reward figures depend on the entry price, the stop-loss
    and the take-profit only.  Two positions with the same entry price get
    the same five figures, whatever their direction, asset, collateral and
    leverage: in particular a long and a short position with the same
    levels are rated alike. *)
Theorem riskReward_ignores_direction
    (p1 p2 : PositionParams) (stopLoss takeProfit : Q) :
  entryPrice p1 == entryPrice p2 ->
  ~ stopLoss == entryPrice p1 ->
  riskRewardRatio (calculateRiskReward p1 stopLoss takeProfit) ==
    riskRewardRatio (calculateRiskReward p2 stopLoss takeProfit) /\
  expectedValue (calculateRiskReward p1 stopLoss takeProfit) ==
    expectedValue (calculateRiskReward p2 stopLoss takeProfit) /\
  probabilityOfProfit (calculateRiskReward p1 stopLoss takeProfit) ==
    probabilityOfProfit (calculateRiskReward p2 stopLoss takeProfit) /\
  maxLoss (calculateRiskReward p1 stopLoss takeProfit) ==
    maxLoss (calculateRiskReward p2 stopLoss takeProfit) /\
  maxProfit (calculateRiskReward p1 stopLoss takeProfit) ==
    maxProfit (calculateRiskReward p2 stopLoss takeProfit).
Proof.
  intros He _.
  destruct (calculateRiskReward_distances p1 stopLoss takeProfit) as [L1 P1].
  destruct (calculateRiskReward_distances p2 stopLoss takeProfit) as [L2 P2].
  assert (HL : maxLoss (calculateRiskReward p1 stopLoss takeProfit) ==
               maxLoss (calculateRiskReward p2 stopLoss takeProfit))
    by (rewrite L1, L2, He; reflexivity).
  assert (HP : maxProfit (calculateRiskReward p1 stopLoss takeProfit) ==
               maxProfit (calculateRiskReward p2 stopLoss takeProfit))
    by (rewrite P1, P2, He; reflexivity).
  revert HL HP. unfold calculateRiskReward.
  cbn [riskRewardRatio expectedValue probabilityOfProfit maxLoss maxProfit].
  intros HL HP. rewrite HL, HP. repeat split; reflexivity.
Qed.

Lemma riskReward_ignores_direction_witness :
  ~ 90 == entryPrice long_at_100 /\
  riskRewardRatio (calculateRiskReward long_at_100 90 130) ==
  riskRewardRatio
    (calculateRiskReward (mkPositionParams "BTC" 1 50 false 100) 90 130).
Proof.
  assert (H : ~ 90 == entryPrice long_at_100) by discriminate.
  split; [exact H|].
  refine (proj1 (riskReward_ignores_direction long_at_100
                   (mkPositionParams "BTC" 1 50 false 100) 90 130 _ H)).
  reflexivity.
Defined.

(** X9: the range of the heuristic.  For an entry price, a stop-loss and a
    take-profit that are non-negative and finite, with the stop-loss
    different from the entry price, the returned [probabilityOfProfit] lies
    between 0 and 100; it is at least 50 whenever the risk/reward ratio is
    at most 1, and at most 40 whenever the ratio is at least 1.5: the
    better the ratio, the lower the percentage. *)
Theorem probabilityOfProfit_range
    (p : PositionParams) (stopLoss takeProfit : Q) :
  0 <= entryPrice p -> entryPrice p <= MAX_VALUE ->
  0 <= stopLoss -> stopLoss <= MAX_VALUE ->
  0 <= takeProfit -> takeProfit <= MAX_VALUE ->
  ~ stopLoss == entryPrice p ->
  0 <= probabilityOfProfit (calculateRiskReward p stopLoss takeProfit) <= 100 /\
  (riskRewardRatio (calculateRiskReward p stopLoss takeProfit) <= 1 ->
   50 <= probabilityOfProfit (calculateRiskReward p stopLoss takeProfit)) /\
  (1.5 <= riskRewardRatio (calculateRiskReward p stopLoss takeProfit) ->
   probabilityOfProfit (calculateRiskReward p stopLoss takeProfit) <= 40).
Proof.
  intros _ _ _ _ _ _ Hne.
  pose proof (maxLoss_positive p stopLoss takeProfit Hne) as Hml.
  pose proof (maxProfit_nonneg p stopLoss takeProfit) as Hmp.
  pose proof (probabilityOfProfit_closed_form p stopLoss takeProfit
                (Qpos_neq0 _ Hml)) as Hcf.
  assert (Hr : riskRewardRatio (calculateRiskReward p stopLoss takeProfit) ==
               maxProfit (calculateRiskReward p stopLoss takeProfit) /
               maxLoss (calculateRiskReward p stopLoss takeProfit))
    by reflexivity.
  revert Hcf Hr.
  generalize (probabilityOfProfit (calculateRiskReward p stopLoss takeProfit)).
  generalize (riskRewardRatio (calculateRiskReward p stopLoss takeProfit)).
  revert Hml Hmp.
  generalize (maxLoss (calculateRiskReward p stopLoss takeProfit)).
  generalize (maxProfit (calculateRiskReward p stopLoss takeProfit)).
  intros mp ml Hml Hmp r pr Hcf Hr.
  assert (Hs : 0 < ml + mp) by lra.
  rewrite Hcf, Hr. split; [split|split].
  - apply Qle_shift_div_l; [exact Hs|]. lra.
  - apply Qle_shift_div_r; [exact Hs|]. lra.
  - intros H. apply Qle_shift_div_l; [exact Hs|].
    destruct (Qlt_le_dec ml mp) as [Hlt|Hle]; [|lra].
    exfalso. apply (Qlt_not_le _ _ (Qlt_shift_div_l _ _ _ Hml
                      (ltac:(lra) : 1 * ml < mp))). exact H.
  - intros H. apply Qle_shift_div_r; [exact Hs|].
    assert (H15 : 1.5 * ml <= mp).
    { destruct (Qlt_le_dec mp (1.5 * ml)) as [Hlt|Hle]; [|exact Hle].
      exfalso. apply (Qlt_not_le _ _ (Qlt_shift_div_r _ _ _ Hml Hlt)).
      exact H. }
    lra.
Qed.

Lemma probabilityOfProfit_range_witness :
  (0 <= entryPrice long_at_100 /\ entryPrice long_at_100 <= MAX_VALUE /\
   0 <= 90 /\ 90 <= MAX_VALUE /\ 0 <= 130 /\ 130 <= MAX_VALUE /\
   ~ 90 == entryPrice long_at_100) /\
  0 <= probabilityOfProfit (calculateRiskReward long_at_100 90 130) <= 100.
Proof.
  assert (H1 : 0 <= entryPrice long_at_100) by discriminate.
  assert (H2 : entryPrice long_at_100 <= MAX_VALUE)
    by (apply Qle_bool_iff; vm_compute; reflexivity).
  assert (H3 : 0 <= 90) by discriminate.
  assert (H4 : 90 <= MAX_VALUE) by (apply Qle_bool_iff; vm_compute; reflexivity).
  assert (H5 : 0 <= 130) by discriminate.
  assert (H6 : 130 <= MAX_VALUE) by (apply Qle_bool_iff; vm_compute; reflexivity).
  assert (H : ~ 90 == entryPrice long_at_100) by discriminate.
  split; [repeat split; assumption|].
  exact (proj1 (probabilityOfProfit_range long_at_100 90 130
                  H1 H2 H3 H4 H5 H6 H)).
Defined.

(** ** The liquidation calculator: further properties *)

Lemma calculateLiquidationPrice_marginRatio (p : PositionParams) :
  In (asset p) supported_symbols -> 0 < leverage p ->
  exists r, calculateLiquidationPrice p = Returned r /\
            marginRatio r == 100 / leverage p.
Proof.
  destruct p as [a c l d e]. cbn [asset leverage]. intros Hin Hl.
  destruct (find_asset_supported a Hin) as [cfg Hf].
  unfold calculateLiquidationPrice. rewrite Hf.
  eexists. split; [reflexivity|]. cbn [marginRatio].
  field. apply Qpos_neq0. exact Hl.
Qed.

(** X10: the liquidation result depends on leverage, direction and entry
    price only.  Two positions on listed assets with the same leverage,
    direction and positive entry price get the same liquidation price and
    the same distances, whatever their collateral and whichever listed
    assets they are on. *)
Theorem liquidation_ignores_collateral_and_asset (p1 p2 : PositionParams) :
  In (asset p1) supported_symbols -> In (asset p2) supported_symbols ->
  leverage p1 == leverage p2 -> isLong p1 = isLong p2 ->
  entryPrice p1 == entryPrice p2 ->
  0 < leverage p1 -> 0 < entryPrice p1 ->
  exists r1 r2,
    calculateLiquidationPrice p1 = Returned r1 /\
    calculateLiquidationPrice p2 = Returned r2 /\
    liquidationPrice r1 == liquidationPrice r2 /\
    distanceToLiquidation r1 == distanceToLiquidation r2 /\
    distancePercentage r1 == distancePercentage r2 /\
    marginRatio r1 == marginRatio r2.
Proof.
  intros Hin1 Hin2 Hl Hd He Hl1 He1.
  assert (Hl2 : 0 < leverage p2) by (rewrite <- Hl; exact Hl1).
  assert (He2 : 0 < entryPrice p2) by (rewrite <- He; exact He1).
  destruct (calculateLiquidationPrice_closed_form p1 Hin1 He1 Hl1)
    as (r1 & Hr1 & A1 & B1 & C1).
  destruct (calculateLiquidationPrice_closed_form p2 Hin2 He2 Hl2)
    as (r2 & Hr2 & A2 & B2 & C2).
  destruct (calculateLiquidationPrice_marginRatio p1 Hin1 Hl1) as (r1' & Hr1' & D1).
  destruct (calculateLiquidationPrice_marginRatio p2 Hin2 Hl2) as (r2' & Hr2' & D2).
  rewrite Hr1 in Hr1'. injection Hr1' as <-.
  rewrite Hr2 in Hr2'. injection Hr2' as <-.
  exists r1, r2. split; [exact Hr1|]. split; [exact Hr2|].
  rewrite <- Hd in A2.
  rewrite A1, A2, B1, B2, C1, C2, D1, D2.
  destruct (isLong p1); rewrite <- Hl, <- He; repeat split; reflexivity.
Qed.

Lemma liquidation_ignores_collateral_and_asset_witness :
  exists r1 r2,
    calculateLiquidationPrice (mkPositionParams "BTC" 7 5 true 25.50) = Returned r1 /\
    calculateLiquidationPrice avax_long = Returned r2 /\
    liquidationPrice r1 == liquidationPrice r2 /\
    distanceToLiquidation r1 == distanceToLiquidation r2 /\
    distancePercentage r1 == distancePercentage r2 /\
    marginRatio r1 == marginRatio r2.
Proof.
  apply (liquidation_ignores_collateral_and_asset
           (mkPositionParams "BTC" 7 5 true 25.50) avax_long).
  - right; left; reflexivity.
  - left; reflexivity.
  - reflexivity.
  - reflexivity.
  - reflexivity.
  - reflexivity.
  - reflexivity.
Defined.



(** ** Fees: further properties *)

(** X13: fees are charged on the position size only.  Two positions with
    the same product [collateral * leverage] pay the same position,
    borrowing, funding and total fees for the same number of hours. *)
Theorem fees_depend_on_position_size (p1 p2 : PositionParams) (hours : Q) :
  collateral p1 * leverage p1 == collateral p2 * leverage p2 ->
  FeeResult_eq (calculateTotalFees p1 hours) (calculateTotalFees p2 hours).
Proof.
  intros Hps. unfold FeeResult_eq, calculateTotalFees.
  cbn [positionFee borrowingFee fundingFee totalFees].
  rewrite Hps. repeat split; reflexivity.
Qed.

Lemma fees_depend_on_position_size_witness :
  FeeResult_eq (calculateTotalFees avax_long 24)
               (calculateTotalFees (mkPositionParams "ETH" 500 10 false 3000) 24).
Proof.
  apply (fees_depend_on_position_size avax_long
           (mkPositionParams "ETH" 500 10 false 3000) 24).
  reflexivity.
Defined.

(** ** The leverage recommender *)

Lemma round_le (x y : Q) : x <= y -> (round x <= round y)%Z.
Proof. intros H. unfold round. apply Qfloor_resp_le. lra. Qed.

Lemma clamp_le (x y : Q) : x <= y -> Qmax 1 (Qmin 50 x) <= Qmax 1 (Qmin 50 y).
Proof. intros H. apply Q.max_le_compat_l, Q.min_le_compat_l, H. Qed.

Lemma clamp_bounds (x : Q) : 1 <= Qmax 1 (Qmin 50 x) <= 50.
Proof.
  split; [apply Q.le_max_l|].
  apply Q.max_lub; [discriminate | apply Q.le_min_l].
Qed.

Lemma riskMultiplier_nonneg (t : RiskTolerance) : 0 <= riskMultiplier t.
Proof. destruct t; discriminate. Qed.

(** X15: for a positive volatility the recommended leverage is a whole
    number between 1 and 50, whatever the asset and the risk tolerance. *)
Theorem calculateSafeLeverage_range
    (sym : string) (volatility : Q) (riskTolerance : RiskTolerance) :
  0 < volatility ->
  1 <= calculateSafeLeverage sym volatility riskTolerance <= 50 /\
  exists n : Z, calculateSafeLeverage sym volatility riskTolerance == inject_Z n.
Proof.
  intros _. unfold calculateSafeLeverage. cbv zeta.
  split; [apply clamp_bounds|].
  set (n := round (Qmax 1 (Qmin 50 (10 / volatility)) *
                   riskMultiplier riskTolerance)).
  destruct (Q.min_spec 50 (inject_Z n)) as [[_ Hmin]|[_ Hmin]].
  - exists 50%Z. rewrite Hmin. reflexivity.
  - destruct (Q.max_spec 1 (inject_Z n)) as [[_ Hmax]|[_ Hmax]].
    + exists n. rewrite Hmin, Hmax. reflexivity.
    + exists 1%Z. rewrite Hmin, Hmax. reflexivity.
Qed.

Lemma calculateSafeLeverage_range_witness :
  0 < 0.85 /\
  1 <= calculateSafeLeverage "AVAX" 0.85 Aggressive <= 50.
Proof.
  assert (H : 0 < 0.85) by reflexivity.
  split; [exact H|].
  exact (proj1 (calculateSafeLeverage_range "AVAX" 0.85 Aggressive H)).
Defined.

(** X16: for a positive volatility the recommendation grows with the risk
    tolerance: Conservative is at most Moderate, which is at most
    Aggressive. *)
Theorem calculateSafeLeverage_monotone_in_tolerance
    (sym : string) (volatility : Q) :
  0 < volatility ->
  calculateSafeLeverage sym volatility Conservative <=
    calculateSafeLeverage sym volatility Moderate /\
  calculateSafeLeverage sym volatility Moderate <=
    calculateSafeLeverage sym volatility Aggressive.
Proof.
  intros _. unfold calculateSafeLeverage. cbv zeta.
  pose proof (clamp_bounds (10 / volatility)) as [Hb _].
  set (b := Qmax 1 (Qmin 50 (10 / volatility))) in *.
  split; apply clamp_le; rewrite <- Zle_Qle; apply round_le;
    cbn [riskMultiplier]; lra.
Qed.

Lemma calculateSafeLeverage_monotone_in_tolerance_witness :
  0 < 0.85 /\
  calculateSafeLeverage "AVAX" 0.85 Conservative <=
    calculateSafeLeverage "AVAX" 0.85 Moderate.
Proof.
  assert (H : 0 < 0.85) by reflexivity.
  split; [exact H|].
  exact (proj1 (calculateSafeLeverage_monotone_in_tolerance "AVAX" 0.85 H)).
Defined.

(** X17: a more volatile asset never gets a higher recommendation: for
    positive volatilities [v1 <= v2] and the same risk tolerance, the
    recommendation for [v2] is at most the one for [v1]. *)
Theorem calculateSafeLeverage_antitone_in_volatility
    (sym1 sym2 : string) (v1 v2 : Q) (riskTolerance : RiskTolerance) :
  0 < v1 -> v1 <= v2 ->
  calculateSafeLeverage sym2 v2 riskTolerance <=
  calculateSafeLeverage sym1 v1 riskTolerance.
Proof.
  intros H1 H12. unfold calculateSafeLeverage. cbv zeta.
  assert (H2 : 0 < v2) by lra.
  assert (Hdiv : 10 / v2 <= 10 / v1).
  { unfold Qdiv. apply Qmult_le_l; [reflexivity|].
    apply Qle_shift_inv_l; [exact H1|].
    setoid_replace (/ v2 * v1) with (v1 / v2) by (field; apply Qpos_neq0, H2).
    apply Qle_shift_div_r; [exact H2 | lra]. }
  apply clamp_le. rewrite <- Zle_Qle. apply round_le.
  apply Qmult_le_compat_r; [apply clamp_le, Hdiv | apply riskMultiplier_nonneg].
Qed.

Lemma calculateSafeLeverage_antitone_in_volatility_witness :
  (0 < 0.65 /\ 0.65 <= 0.85) /\
  calculateSafeLeverage "AVAX" 0.85 Moderate <=
  calculateSafeLeverage "BTC" 0.65 Moderate.
Proof.
  assert (H1 : 0 < 0.65) by reflexivity.
  assert (H2 : 0.65 <= 0.85) by discriminate.
  split; [split; assumption|].
  exact (calculateSafeLeverage_antitone_in_volatility
           "BTC" "AVAX" 0.65 0.85 Moderate H1 H2).
Defined.

(** ** The validator: what it accepts *)

(** No check fires on a position in range: the asset-specific check cannot,
    because every listed asset allows a leverage of 50. *)
Lemma validatePosition_valid_intro (p : PositionParams) :
  asset p <> ""%string -> 0 < collateral p ->
  1 <= leverage p <= 50 -> 0 < entryPrice p ->
  isValid (validatePosition p) = true.
Proof.
  intros Ha Hc [Hl1 Hl2] He. rewrite validatePosition_isValid.
  destruct (errors (validatePosition p)) as [|e l] eqn:E; [reflexivity|].
  exfalso.
  assert (Hin : In e (errors (validatePosition p))) by (rewrite E; now left).
  apply validatePosition_errors in Hin.
  destruct Hin as [[H _]|[[H _]|[[H _]|[[H _]|(cfg & Hf & H & _)]]]].
  - contradiction.
  - apply (Qlt_not_le _ _ Hc H).
  - destruct H as [H|H]; [apply (Qlt_not_le _ _ H Hl1)
                         | apply (Qlt_not_le _ _ H Hl2)].
  - apply (Qlt_not_le _ _ He H).
  - apply find_asset_maxLeverage in Hf. rewrite Hf in H.
    apply (Qlt_not_le _ _ H Hl2).
Qed.

(** The validator accepts exactly when none of its four own tests holds. *)
Lemma validatePosition_valid_tests (p : PositionParams) :
  isValid (validatePosition p) = true <->
  asset p <> ""%string /\ ~ collateral p <= 0 /\
  ~ leverage p < 1 /\ ~ 50 < leverage p /\ ~ entryPrice p <= 0.
Proof.
  rewrite validatePosition_isValid. split.
  - intros Hnil.
    assert (Hno : forall e, ~ In e (errors (validatePosition p)))
      by (intros e; rewrite Hnil; intros []).
    repeat split.
    + intros Ha. apply (Hno msg_asset_required).
      apply validatePosition_errors. left. now split.
    + intros H. apply (Hno msg_collateral).
      apply validatePosition_errors. right; left. now split.
    + intros H. apply (Hno msg_leverage_range).
      apply validatePosition_errors. right; right; left. split; auto.
    + intros H. apply (Hno msg_leverage_range).
      apply validatePosition_errors. right; right; left. split; auto.
    + intros H. apply (Hno msg_entry_price).
      apply validatePosition_errors. right; right; right; left. now split.
  - intros (Ha & Hc & Hl1 & Hl2 & He).
    destruct (errors (validatePosition p)) as [|e l] eqn:E; [reflexivity|].
    exfalso.
    assert (Hin : In e (errors (validatePosition p))) by (rewrite E; now left).
    apply validatePosition_errors in Hin.
    destruct Hin as [[H _]|[[H _]|[[H _]|[[H _]|(cfg & Hf & H & _)]]]].
    + contradiction.
    + contradiction.
    + destruct H as [H|H]; contradiction.
    + contradiction.
    + apply find_asset_maxLeverage in Hf. rewrite Hf in H. contradiction.
Qed.

(** X20: what the validator accepts.  It returns [isValid = true] exactly
    when the symbol is not empty and none of its own comparisons holds:
    not [collateral <= 0], not [leverage < 1], not [leverage > 50], not
    [entryPrice <= 0]; whether the symbol is in the asset table plays no
    part.  In particular every position with a non-empty symbol, positive
    collateral, leverage between 1 and 50 and positive entry price is
    accepted. *)
Theorem validatePosition_accepts_iff (p : PositionParams) :
  (isValid (validatePosition p) = true <->
   asset p <> ""%string /\ ~ collateral p <= 0 /\
   ~ leverage p < 1 /\ ~ 50 < leverage p /\ ~ entryPrice p <= 0) /\
  (asset p <> ""%string -> 0 < collateral p ->
   1 <= leverage p <= 50 -> 0 < entryPrice p ->
   isValid (validatePosition p) = true).
Proof.
  split.
  - apply validatePosition_valid_tests.
  - apply validatePosition_valid_intro.
Qed.

Lemma validatePosition_accepts_iff_witness :
  (asset doge_long <> ""%string /\ 0 < collateral doge_long /\
   1 <= leverage doge_long <= 50 /\ 0 < entryPrice doge_long) /\
  isValid (validatePosition doge_long) = true.
Proof.
  assert (Ha : asset doge_long <> ""%string) by discriminate.
  assert (Hc : 0 < collateral doge_long) by reflexivity.
  assert (Hl : 1 <= leverage doge_long <= 50) by (split; discriminate).
  assert (He : 0 < entryPrice doge_long) by reflexivity.
  split; [repeat split; try assumption; apply Hl|].
  exact (proj2 (validatePosition_accepts_iff doge_long) Ha Hc Hl He).
Defined.

(** ** utils.ts *)

Lemma length_substring (s : string) (n m : nat) :
  (n + m <= String.length s)%nat -> String.length (substring n m s) = m.
Proof.
  revert n m. induction s as [|c s IH]; intros n m H; simpl in H.
  - destruct n, m; simpl; lia.
  - destruct n as [|n].
    + destruct m as [|m]; simpl; [reflexivity|].
      f_equal. apply (IH 0%nat m). lia.
    + simpl. apply IH. lia.
Qed.

Lemma length_app (s t : string) :
  String.length (s ++ t) = (String.length s + String.length t)%nat.
Proof. induction s as [|c s IH]; simpl; [reflexivity | now rewrite IH]. Qed.

Lemma substring_all (s : string) : substring 0 (String.length s) s = s.
Proof. induction s as [|c s IH]; simpl; [reflexivity | now rewrite IH]. Qed.

Lemma slice_first (s : string) (k : nat) :
  (k <= String.length s)%nat ->
  slice s 0 (Some (Z.of_nat k)) = substring 0 k s.
Proof.
  intros Hk. unfold slice.
  assert (E1 : (0 <? 0)%Z = false) by reflexivity. rewrite E1.
  destruct (Z.ltb_spec (Z.of_nat k) 0) as [H|H]; [lia|].
  replace (Z.to_nat (Z.min 0 (Z.of_nat (String.length s)))) with 0%nat by lia.
  replace (Z.to_nat (Z.max (Z.min (Z.of_nat k) (Z.of_nat (String.length s)) -
                            Z.min 0 (Z.of_nat (String.length s))) 0))
    with k by lia.
  reflexivity.
Qed.

Lemma slice_last (s : string) (k : nat) :
  (0 < k <= String.length s)%nat ->
  slice s (- Z.of_nat k) None = substring (String.length s - k) k s.
Proof.
  intros Hk. unfold slice.
  destruct (Z.ltb_spec (- Z.of_nat k) 0) as [H|H]; [|lia].
  replace (Z.to_nat (Z.max (Z.of_nat (String.length s) + - Z.of_nat k) 0))
    with (String.length s - k)%nat by lia.
  replace (Z.to_nat (Z.max (Z.of_nat (String.length s) -
                            Z.max (Z.of_nat (String.length s) + - Z.of_nat k) 0) 0))
    with k by lia.
  reflexivity.
Qed.

Lemma slice_from_zero (s : string) : slice s 0 None = s.
Proof.
  unfold slice.
  assert (E1 : (0 <? 0)%Z = false) by reflexivity. rewrite E1.
  replace (Z.to_nat (Z.min 0 (Z.of_nat (String.length s)))) with 0%nat by lia.
  replace (Z.to_nat (Z.max (Z.of_nat (String.length s) -
                            Z.min 0 (Z.of_nat (String.length s))) 0))
    with (String.length s) by lia.
  apply substring_all.
Qed.

Lemma not_string_false (s : string) :
  s <> ""%string -> not_string s = false.
Proof. destruct s; [congruence | reflexivity]. Qed.

(** X22: [getRiskLevel] and the table [RISK_LEVELS] agree.  For a leverage
    of at most 50, the level returned is the lowest entry of the table whose
    [maxLeverage] admits the leverage; its name in the table is the returned
    string, and [getRiskColor] of that string is the colour of the entry
    (never the default grey). *)
Theorem getRiskLevel_matches_RISK_LEVELS (leverage : Q) :
  leverage <= 50 ->
  leverage <=
    inject_Z (RISK_LEVELS.maxLeverage (risk_level_config (getRiskLevel leverage))) /\
  (forall level : RiskTolerance,
     leverage <= inject_Z (RISK_LEVELS.maxLeverage (risk_level_config level)) ->
     (RISK_LEVELS.maxLeverage (risk_level_config (getRiskLevel leverage)) <=
      RISK_LEVELS.maxLeverage (risk_level_config level))%Z) /\
  RISK_LEVELS.name (risk_level_config (getRiskLevel leverage)) =
    level_string (getRiskLevel leverage) /\
  getRiskColor (level_string (getRiskLevel leverage)) =
    RISK_LEVELS.color (risk_level_config (getRiskLevel leverage)).
Proof.
  intros H50. unfold getRiskLevel.
  destruct (leb_reflect leverage 3) as [H3|H3].
  - split; [exact H3|]. split; [|split; reflexivity].
    intros [] _; discriminate.
  - destruct (leb_reflect leverage 10) as [H10|H10].
    + split; [exact H10|]. split; [|split; reflexivity].
      intros [] H; try discriminate. contradiction.
    + split; [exact H50|]. split; [|split; reflexivity].
      intros [] H; try discriminate; contradiction.
Qed.

Lemma getRiskLevel_matches_RISK_LEVELS_witness :
  5 <= 50 /\ getRiskLevel 5 = Moderate /\
  5 <= inject_Z (RISK_LEVELS.maxLeverage (risk_level_config (getRiskLevel 5))).
Proof.
  assert (H : 5 <= 50) by discriminate.
  split; [exact H|]. split; [reflexivity|].
  exact (proj1 (getRiskLevel_matches_RISK_LEVELS 5 H)).
Defined.

(** X23: the shape of a shortened address.  For [chars] between 1 and the
    length of the address less 2, [shortenAddress] returns the first
    [chars + 2] characters, three dots and the last [chars] characters:
    [2 * chars + 5] characters in all. *)
Theorem shortenAddress_shape (address : string) (chars : nat) :
  (0 < chars)%nat -> (chars + 2 <= String.length address)%nat ->
  shortenAddress address (Z.of_nat chars) =
    (substring 0 (chars + 2) address ++ "..." ++
     substring (String.length address - chars) chars address)%string /\
  String.length (shortenAddress address (Z.of_nat chars)) = (2 * chars + 5)%nat.
Proof.
  intros Hc Hlen.
  assert (Hne : address <> ""%string)
    by (intros ->; simpl in Hlen; lia).
  assert (E : shortenAddress address (Z.of_nat chars) =
    (substring 0 (chars + 2) address ++ "..." ++
     substring (String.length address - chars) chars address)%string).
  { unfold shortenAddress. rewrite (not_string_false _ Hne).
    replace (Z.of_nat chars + 2)%Z with (Z.of_nat (chars + 2)) by lia.
    rewrite slice_first by lia. rewrite slice_last by lia. reflexivity. }
  split; [exact E|].
  rewrite E, !length_app, !length_substring by lia. simpl. lia.
Qed.

Lemma shortenAddress_shape_witness :
  shortenAddress "0xB31f66AA3C1e785363F0875A1B74E27b85FD66c7" 4 =
  "0xB31f...66c7"%string.
Proof.
  refine (eq_trans (proj1 (shortenAddress_shape
            "0xB31f66AA3C1e785363F0875A1B74E27b85FD66c7" 4 _ _)) _).
  - simpl; lia.
  - simpl; lia.
  - reflexivity.
Defined.

(** X24: the edges of [shortenAddress].  An empty address gives the empty
    string.  With [chars = 0] the second slice starts at index 0, so the
    result is the first two characters, three dots and then the whole
    address: longer than the address it was given. *)
Theorem shortenAddress_edges (address : string) :
  (forall chars : Z, shortenAddress "" chars = ""%string) /\
  ((2 <= String.length address)%nat ->
   shortenAddress address 0 =
     (substring 0 2 address ++ "..." ++ address)%string /\
   (String.length address < String.length (shortenAddress address 0))%nat).
Proof.
  split; [reflexivity|]. intros Hlen.
  assert (Hne : address <> ""%string)
    by (intros ->; simpl in Hlen; lia).
  assert (E : shortenAddress address 0 =
              (substring 0 2 address ++ "..." ++ address)%string).
  { unfold shortenAddress. rewrite (not_string_false _ Hne).
    change (0 + 2)%Z with (Z.of_nat 2). change (- 0)%Z with 0%Z.
    rewrite slice_first by lia. rewrite slice_from_zero. reflexivity. }
  split; [exact E|].
  rewrite E, !length_app. simpl. lia.
Qed.

Lemma shortenAddress_edges_witness :
  (2 <= String.length "0xabcdef")%nat /\
  shortenAddress "0xabcdef" 0 = "0x...0xabcdef"%string.
Proof.
  assert (H : (2 <= String.length "0xabcdef")%nat) by (simpl; lia).
  split; [exact H|].
  exact (proj1 (proj2 (shortenAddress_edges "0xabcdef") H)).
Defined.

(** X25: an address that [isValidAddress] accepts has 42 characters and
    starts with "0x"; its default shortened form ([chars = 4]) is the first
    six characters, three dots and the last four, 13 characters in all.
    Every address of the asset table is accepted. *)
Theorem isValidAddress_shortened (addr : string) :
  Forall (fun a => isValidAddress (address a) = true) SUPPORTED_ASSETS /\
  (isValidAddress addr = true ->
   String.length addr = 42%nat /\
   String.prefix "0x" addr = true /\
   shortenAddress addr 4 =
     (substring 0 6 addr ++ "..." ++ substring 38 4 addr)%string /\
   String.length (shortenAddress addr 4) = 13%nat).
Proof.
  split; [repeat constructor|].
  unfold isValidAddress. rewrite !andb_true_iff, Nat.eqb_eq.
  intros [[Hpre Hlen] _].
  assert (Hne : addr <> ""%string)
    by (intros ->; simpl in Hlen; discriminate Hlen).
  assert (E : shortenAddress addr 4 =
              (substring 0 6 addr ++ "..." ++ substring 38 4 addr)%string).
  { unfold shortenAddress. rewrite (not_string_false _ Hne).
    change (4 + 2)%Z with (Z.of_nat 6). change (Z.opp 4) with (- Z.of_nat 4)%Z.
    rewrite slice_first by lia. rewrite slice_last by lia.
    rewrite Hlen. reflexivity. }
  split; [exact Hlen|]. split; [exact Hpre|]. split; [exact E|].
  rewrite E, !length_app, !length_substring by lia. reflexivity.
Qed.

Lemma isValidAddress_shortened_witness :
  isValidAddress "0x50b7545627a5162F82A992c33b87aDc75187B218" = true /\
  String.length
    (shortenAddress "0x50b7545627a5162F82A992c33b87aDc75187B218" 4) = 13%nat.
Proof.
  assert (H : isValidAddress "0x50b7545627a5162F82A992c33b87aDc75187B218" = true)
    by reflexivity.
  split; [exact H|].
  exact (proj2 (proj2 (proj2 (proj2 (isValidAddress_shortened
           "0x50b7545627a5162F82A992c33b87aDc75187B218") H)))).
Defined.

(** ** The components *)

(** X26: the liquidation panel shows a calculation exactly when it shows no
    error, and that is exactly when the validator accepts the position and
    the symbol is in the asset table; this is the case for every listed
    symbol with positive collateral, positive entry price and leverage
    between 1 and 50.  A position the validator accepts on a symbol outside
    the table ends in the [catch] branch: no calculation, and the single
    error "Asset ... not supported". *)
Theorem LiquidationCalculator_effect_outcome (state : CalculatorState.t) :
  (calculation (LiquidationCalculator.effect state) <> None <->
   shownErrors (LiquidationCalculator.effect state) = []) /\
  (calculation (LiquidationCalculator.effect state) <> None <->
   isValid (validatePosition (CalculatorState.params state)) = true /\
   In (CalculatorState.asset state) supported_symbols) /\
  (In (CalculatorState.asset state) supported_symbols ->
   0 < CalculatorState.collateral state ->
   1 <= CalculatorState.leverage state <= 50 ->
   0 < CalculatorState.entryPrice state ->
   calculation (LiquidationCalculator.effect state) <> None) /\
  (isValid (validatePosition (CalculatorState.params state)) = true ->
   ~ In (CalculatorState.asset state) supported_symbols ->
   LiquidationCalculator.effect state =
   mkHooks None [unsupported_message (CalculatorState.asset state)]).
Proof.
  unfold LiquidationCalculator.effect.
  pose proof (validatePosition_valid_intro (CalculatorState.params state)) as Hv.
  pose proof (validatePosition_isValid (CalculatorState.params state)) as Hnil.
  destruct state as [a c l d e cur].
  unfold CalculatorState.params in *.
  cbn [CalculatorState.asset CalculatorState.collateral CalculatorState.leverage
       CalculatorState.isLong CalculatorState.entryPrice] in *.
  cbn [asset collateral leverage entryPrice] in Hv.
  destruct (isValid (validatePosition (mkPositionParams a c l d e))) eqn:Ev.
  - unfold calculateLiquidationPrice.
    destruct (find_asset a) as [cfg|] eqn:Hf.
    + assert (Hin : In a supported_symbols).
      { apply find_asset_Some in Hf. destruct Hf as [Hin <-].
        unfold supported_symbols. now apply in_map. }
      cbn [calculation shownErrors]. split; [|split; [|split]].
      * split; [reflexivity | discriminate].
      * split; [intros _; split; [reflexivity | exact Hin] | discriminate].
      * intros _ _ _ _. discriminate.
      * intros _ Hnot. contradiction.
    + apply find_asset_None in Hf.
      cbn [calculation shownErrors]. split; [|split; [|split]].
      * split; [intros H; now destruct H | discriminate].
      * split; [intros H; now destruct H | intros [_ Hin]; contradiction].
      * intros Hin. contradiction.
      * intros _ _. reflexivity.
  - cbn [calculation shownErrors]. split; [|split; [|split]].
    + split; [intros H; now destruct H|].
      intros E. apply Hnil in E. discriminate E.
    + split; [intros H; now destruct H | intros [H _]; discriminate H].
    + intros Hin Hc Hl He.
      assert (Habs : false = true).
      { apply Hv; try assumption.
        intros ->. simpl in Hin.
        repeat (destruct Hin as [Hin|Hin]; [discriminate Hin|]). exact Hin. }
      discriminate Habs.
    + discriminate.
Qed.

Lemma LiquidationCalculator_effect_outcome_witness :
  isValid (validatePosition
             (CalculatorState.params
                (CalculatorState.mk "DOGE" 1000 5 true 10 10))) = true /\
  LiquidationCalculator.effect (CalculatorState.mk "DOGE" 1000 5 true 10 10) =
  mkHooks None ["Asset DOGE not supported"%string].
Proof.
  assert (Hv : isValid (validatePosition
             (CalculatorState.params
                (CalculatorState.mk "DOGE" 1000 5 true 10 10))) = true)
    by reflexivity.
  split; [exact Hv|].
  refine (proj2 (proj2 (proj2 (LiquidationCalculator_effect_outcome
            (CalculatorState.mk "DOGE" 1000 5 true 10 10)))) Hv _).
  apply find_asset_None. reflexivity.
Defined.

(** One scenario of the simulator, for a position in range. *)
Lemma PnLSimulator_scenario_favourable (state : CalculatorState.t) (change : Q) :
  0 < CalculatorState.collateral state ->
  1 <= CalculatorState.leverage state ->
  0 < CalculatorState.entryPrice state ->
  0 < change ->
  let s := PnLSimulator.scenario state change in
  PnLSimulator.priceChange s = change /\
  (if CalculatorState.isLong state
   then CalculatorState.entryPrice state <= PnLSimulator.price s
   else PnLSimulator.price s <= CalculatorState.entryPrice state) /\
  0 <= PnLSimulator.pnl s /\
  0 <= PnLSimulator.pnlPercentage s /\
  0 <= PnLSimulator.roi s.
Proof.
  intros Hc Hl He Hch.
  destruct state as [a c l d e cur].
  cbn [CalculatorState.asset CalculatorState.collateral CalculatorState.leverage
       CalculatorState.isLong CalculatorState.entryPrice] in *.
  assert (Hl0 : 0 < l) by lra.
  assert (Hmove : 0 <= e * (change / 100)).
  { apply Qmult_le_0_compat; [lra|].
    apply Qle_shift_div_l; [reflexivity | lra]. }
  pose proof (calculatePnL_sign (mkPositionParams a c l d e)
                (e * (1 + (if d then change else - change) / 100))
                Hc Hl0 He) as [Hup _].
  cbn [isLong entryPrice] in Hup.
  assert (Hfav : 0 <= (if d then 1 else -1) *
                      (e * (1 + (if d then change else - change) / 100) - e)).
  { destruct d; unfold Qdiv in *; lra. }
  specialize (Hup Hfav).
  unfold PnLSimulator.scenario, CalculatorState.params.
  cbn [CalculatorState.asset CalculatorState.collateral CalculatorState.leverage
       CalculatorState.isLong CalculatorState.entryPrice].
  destruct (calculatePnL (mkPositionParams a c l d e)
              (e * (1 + (if d then change else - change) / 100)))
    as [x1 x2 x3 x4].
  cbn [pnl pnlPercentage roi] in Hup.
  cbn [PnLSimulator.priceChange PnLSimulator.price PnLSimulator.pnl
       PnLSimulator.pnlPercentage PnLSimulator.roi].
  split; [reflexivity|]. split; [|exact Hup].
  destruct d; unfold Qdiv in *; lra.
Qed.

(** X27: the simulator never shows a losing scenario.  For a non-empty
    symbol, positive collateral, leverage between 1 and 50 and positive
    entry price, all finite, it returns no error and one scenario for each
    of the price changes 5, 10, 20 and 50; each moves the price in the
    direction of the position (not below the entry price for a long, not
    above it for a short), and its profit, profit percentage and return are
    never negative. *)
Theorem PnLSimulator_scenarios_never_lose (state : CalculatorState.t) :
  CalculatorState.asset state <> ""%string ->
  0 < CalculatorState.collateral state ->
  1 <= CalculatorState.leverage state <= 50 ->
  CalculatorState.collateral state * CalculatorState.leverage state
    <= MAX_VALUE ->
  0 < CalculatorState.entryPrice state ->
  CalculatorState.entryPrice state <= MAX_VALUE ->
  exists c,
    PnLSimulator.effect state = mkHooks (Some c) [] /\
    map PnLSimulator.priceChange (PnLSimulator.scenarios c) =
      UI_CONSTANTS.priceChangeScenarios /\
    Forall (fun s =>
      (if CalculatorState.isLong state
       then CalculatorState.entryPrice state <= PnLSimulator.price s
       else PnLSimulator.price s <= CalculatorState.entryPrice state) /\
      0 <= PnLSimulator.pnl s /\
      0 <= PnLSimulator.pnlPercentage s /\
      0 <= PnLSimulator.roi s)
      (PnLSimulator.scenarios c).
Proof.
  intros Ha Hc Hl _ He _.
  assert (Hv : isValid (validatePosition (CalculatorState.params state)) = true).
  { apply validatePosition_valid_intro; destruct state; assumption. }
  unfold PnLSimulator.effect. rewrite Hv.
  destruct (calculatePnL (CalculatorState.params state)
                         (CalculatorState.entryPrice state))
    as [x1 x2 x3 be] eqn:Ebe.
  eexists. split; [reflexivity|]. cbn [PnLSimulator.scenarios].
  split.
  - rewrite map_map. unfold UI_CONSTANTS.priceChangeScenarios.
    cbn [map]. unfold PnLSimulator.scenario.
    repeat match goal with
    | |- context [calculatePnL ?p ?x] => destruct (calculatePnL p x)
    end.
    reflexivity.
  - apply Forall_forall. intros s Hs. apply in_map_iff in Hs.
    destruct Hs as (change & <- & Hin).
    assert (Hch : 0 < change).
    { unfold UI_CONSTANTS.priceChangeScenarios in Hin. simpl in Hin.
      repeat (destruct Hin as [<-|Hin]; [reflexivity|]). destruct Hin. }
    destruct Hl as [Hl1 _].
    pose proof (PnLSimulator_scenario_favourable state change Hc Hl1 He Hch)
      as (_ & Hprice & Hrest).
    split; assumption.
Qed.

Lemma PnLSimulator_scenarios_never_lose_witness :
  exists c,
    PnLSimulator.effect (CalculatorState.mk "AVAX" 1000 5 false 25.50 25.50) =
      mkHooks (Some c) [] /\
    map PnLSimulator.priceChange (PnLSimulator.scenarios c) = [5; 10; 20; 50].
Proof.
  destruct (PnLSimulator_scenarios_never_lose
              (CalculatorState.mk "AVAX" 1000 5 false 25.50 25.50))
    as (c & Hc & Hm & _).
  - discriminate.
  - reflexivity.
  - split; discriminate.
  - apply Qle_bool_iff; vm_compute; reflexivity.
  - reflexivity.
  - apply Qle_bool_iff; vm_compute; reflexivity.
  - exists c. split; [exact Hc | exact Hm].
Defined.

(** The errors of the risk/reward panel when it shows no calculation: the
    validator's errors followed by the panel's own four checks. *)
Lemma RiskRewardRatio_effect_spec
    (state : CalculatorState.t) (stopLoss takeProfit : Q) :
  let p := CalculatorState.params state in
  (isValid (validatePosition p) = true /\ 0 < stopLoss /\ 0 < takeProfit ->
   RiskRewardRatio.effect state stopLoss takeProfit =
   mkHooks (Some (RiskRewardRatio.mkRiskRewardCalculation
                    (calculateRiskReward p stopLoss takeProfit)
                    (RiskRewardRatio.recommend
                       (riskRewardRatio
                          (calculateRiskReward p stopLoss takeProfit))))) []) /\
  (~ (isValid (validatePosition p) = true /\ 0 < stopLoss /\ 0 < takeProfit) ->
   RiskRewardRatio.effect state stopLoss takeProfit =
   mkHooks None
     (errors (validatePosition p) ++
      (if leb stopLoss 0 then [RiskRewardRatio.msg_stop_loss] else []) ++
      (if leb takeProfit 0 then [RiskRewardRatio.msg_take_profit] else []) ++
      (if leb takeProfit stopLoss then [RiskRewardRatio.msg_order_long] else []) ++
      (if leb stopLoss takeProfit && negb (CalculatorState.isLong state)
       then [RiskRewardRatio.msg_order_short] else []))).
Proof.
  intros p. unfold RiskRewardRatio.effect. fold p.
  assert (Hguard :
    isValid (validatePosition p) && gtb stopLoss 0 && gtb takeProfit 0 = true <->
    isValid (validatePosition p) = true /\ 0 < stopLoss /\ 0 < takeProfit).
  { rewrite !andb_true_iff, !gtb_spec. tauto. }
  destruct (isValid (validatePosition p) && gtb stopLoss 0 && gtb takeProfit 0).
  - split; [reflexivity|]. intros H. exfalso. apply H, Hguard. reflexivity.
  - split.
    + intros H. apply Hguard in H. discriminate H.
    + intros _. unfold push. f_equal.
      destruct (leb stopLoss 0), (leb takeProfit 0), (leb takeProfit stopLoss),
               (leb stopLoss takeProfit && negb (CalculatorState.isLong state));
        rewrite <- ?app_assoc; cbn [app]; rewrite ?app_nil_r; reflexivity.
Qed.

(** The panel's own messages are none of the validator's. *)
Lemma validatePosition_no_panel_message (p : PositionParams) (e : string) :
  In e (errors (validatePosition p)) ->
  e <> RiskRewardRatio.msg_stop_loss /\ e <> RiskRewardRatio.msg_take_profit /\
  e <> RiskRewardRatio.msg_order_long /\ e <> RiskRewardRatio.msg_order_short.
Proof.
  intros Hin. apply validatePosition_errors in Hin.
  destruct Hin as [[_ H]|[[_ H]|[[_ H]|[[_ H]|(cfg & _ & _ & H)]]]];
    subst e; repeat split; discriminate.
Qed.

(** X28: the risk/reward panel shows a calculation exactly when the
    validator accepts the position and the stop-loss and the take-profit are
    both positive, and then it shows no error.  The order of the stop-loss
    and the take-profit is not part of that test: a long position whose
    stop-loss is at or above its take-profit is calculated and shown without
    any error. *)
Theorem RiskRewardRatio_effect_outcome
    (state : CalculatorState.t) (stopLoss takeProfit : Q) :
  (calculation (RiskRewardRatio.effect state stopLoss takeProfit) <> None <->
   isValid (validatePosition (CalculatorState.params state)) = true /\
   0 < stopLoss /\ 0 < takeProfit) /\
  (calculation (RiskRewardRatio.effect state stopLoss takeProfit) <> None ->
   shownErrors (RiskRewardRatio.effect state stopLoss takeProfit) = []) /\
  (isValid (validatePosition (CalculatorState.params state)) = true ->
   0 < takeProfit -> takeProfit <= stopLoss ->
   CalculatorState.isLong state = true ->
   calculation (RiskRewardRatio.effect state stopLoss takeProfit) <> None /\
   shownErrors (RiskRewardRatio.effect state stopLoss takeProfit) = []).
Proof.
  destruct (RiskRewardRatio_effect_spec state stopLoss takeProfit) as [Hyes Hno].
  set (G := isValid (validatePosition (CalculatorState.params state)) = true /\
            0 < stopLoss /\ 0 < takeProfit) in *.
  assert (Hdec : G \/ ~ G).
  { unfold G.
    destruct (isValid (validatePosition (CalculatorState.params state)));
      [|right; intros [H _]; discriminate H].
    destruct (Qlt_le_dec 0 stopLoss) as [H1|H1];
      [|right; intros (_ & H & _); lra].
    destruct (Qlt_le_dec 0 takeProfit) as [H2|H2];
      [|right; intros (_ & _ & H); lra].
    left. auto. }
  assert (Hsome : calculation (RiskRewardRatio.effect state stopLoss takeProfit)
                  <> None -> G).
  { intros H. destruct Hdec as [HG|HnG]; [exact HG|].
    rewrite (Hno HnG) in H. now destruct H. }
  split; [|split].
  - split; [exact Hsome|].
    intros HG. rewrite (Hyes HG). discriminate.
  - intros H. rewrite (Hyes (Hsome H)). reflexivity.
  - intros Hv Htp Hord _.
    assert (HG : G) by (unfold G; repeat split; [exact Hv | lra | exact Htp]).
    rewrite (Hyes HG). split; [discriminate | reflexivity].
Qed.

Lemma RiskRewardRatio_effect_outcome_witness :
  (isValid (validatePosition
              (CalculatorState.params
                 (CalculatorState.mk "AVAX" 1000 5 true 100 100))) = true /\
   0 < 90 /\ 90 <= 110 /\
   CalculatorState.isLong (CalculatorState.mk "AVAX" 1000 5 true 100 100) = true) /\
  shownErrors
    (RiskRewardRatio.effect (CalculatorState.mk "AVAX" 1000 5 true 100 100)
                            110 90) = [].
Proof.
  assert (Hv : isValid (validatePosition
              (CalculatorState.params
                 (CalculatorState.mk "AVAX" 1000 5 true 100 100))) = true)
    by reflexivity.
  assert (H1 : 0 < 90) by reflexivity.
  assert (H2 : 90 <= 110) by discriminate.
  split; [repeat split; assumption|].
  exact (proj2 (proj2 (proj2 (RiskRewardRatio_effect_outcome
           (CalculatorState.mk "AVAX" 1000 5 true 100 100) 110 90))
           Hv H1 H2 eq_refl)).
Defined.

(** X29: the message "Stop-loss must be below take-profit for long
    positions" does not look at the direction.  It is among the shown errors
    exactly when the panel shows no calculation and the stop-loss is at or
    above the take-profit, for short positions as for long ones; the
    message for short positions is shown exactly when there is no
    calculation, the stop-loss is at or below the take-profit and the
    position is short. *)
Theorem RiskRewardRatio_order_messages
    (state : CalculatorState.t) (stopLoss takeProfit : Q) :
  (In RiskRewardRatio.msg_order_long
      (shownErrors (RiskRewardRatio.effect state stopLoss takeProfit)) <->
   calculation (RiskRewardRatio.effect state stopLoss takeProfit) = None /\
   takeProfit <= stopLoss) /\
  (In RiskRewardRatio.msg_order_short
      (shownErrors (RiskRewardRatio.effect state stopLoss takeProfit)) <->
   calculation (RiskRewardRatio.effect state stopLoss takeProfit) = None /\
   stopLoss <= takeProfit /\ CalculatorState.isLong state = false).
Proof.
  destruct (RiskRewardRatio_effect_spec state stopLoss takeProfit) as [Hyes Hno].
  set (G := isValid (validatePosition (CalculatorState.params state)) = true /\
            0 < stopLoss /\ 0 < takeProfit) in *.
  assert (Hdec : G \/ ~ G).
  { unfold G.
    destruct (isValid (validatePosition (CalculatorState.params state)));
      [|right; intros [H _]; discriminate H].
    destruct (Qlt_le_dec 0 stopLoss) as [H1|H1];
      [|right; intros (_ & H & _); lra].
    destruct (Qlt_le_dec 0 takeProfit) as [H2|H2];
      [|right; intros (_ & _ & H); lra].
    left. auto. }
  destruct Hdec as [HG|HnG].
  - rewrite (Hyes HG). cbn [shownErrors calculation].
    split; (split; [intros [] | intros [H _]; discriminate H]).
  - rewrite (Hno HnG). cbn [shownErrors calculation].
    pose proof (validatePosition_no_panel_message
                  (CalculatorState.params state)) as Hval.
    split.
    + rewrite !in_app_iff, !In_if_singleton. split.
      * intros [H|[[_ H]|[[_ H]|[[H _]|[_ H]]]]]; try discriminate H.
        -- apply Hval in H. exfalso. tauto.
        -- apply leb_spec in H. auto.
      * intros [_ H]. apply leb_spec in H. right; right; right; left. auto.
    + rewrite !in_app_iff, !In_if_singleton, andb_true_iff, negb_true_iff.
      split.
      * intros [H|[[_ H]|[[_ H]|[[_ H]|[[H1 H2] _]]]]]; try discriminate H.
        -- apply Hval in H. exfalso. tauto.
        -- apply leb_spec in H1. auto.
      * intros (_ & H1 & H2). apply leb_spec in H1.
        right; right; right; right. auto.
Qed.

Lemma RiskRewardRatio_order_messages_witness :
  CalculatorState.isLong (CalculatorState.mk "AVAX" 0 5 false 100 100) = false /\
  In RiskRewardRatio.msg_order_long
     (shownErrors
        (RiskRewardRatio.effect (CalculatorState.mk "AVAX" 0 5 false 100 100)
                                110 90)).
Proof.
  split; [reflexivity|].
  apply (proj1 (RiskRewardRatio_order_messages
                  (CalculatorState.mk "AVAX" 0 5 false 100 100) 110 90)).
  split; [reflexivity | discriminate].
Defined.

(** X30: what the panel recommends and what it displays pull apart.
    Whenever it shows a calculation for a stop-loss different from the entry
    price, with entry price, stop-loss and take-profit non-negative and
    finite, its recommendation differs from the "Poor ..." text exactly when
    the ratio is at least 1.5, and in that case the probability of profit it
    shows is at most 40. *)
Theorem RiskRewardRatio_rating_against_probability
    (state : CalculatorState.t) (stopLoss takeProfit : Q)
    (c : RiskRewardRatio.RiskRewardCalculation) :
  calculation (RiskRewardRatio.effect state stopLoss takeProfit) = Some c ->
  0 <= CalculatorState.entryPrice state ->
  CalculatorState.entryPrice state <= MAX_VALUE ->
  stopLoss <= MAX_VALUE -> takeProfit <= MAX_VALUE ->
  ~ stopLoss == CalculatorState.entryPrice state ->
  (1.5 <= riskRewardRatio (RiskRewardRatio.result c) <->
   RiskRewardRatio.recommendation c <>
   RiskRewardRatio.recommend 0) /\
  (1.5 <= riskRewardRatio (RiskRewardRatio.result c) ->
   probabilityOfProfit (RiskRewardRatio.result c) <= 40).
Proof.
  intros Hc _ _ _ _ Hne.
  destruct (RiskRewardRatio_effect_spec state stopLoss takeProfit) as [Hyes Hno].
  cbv zeta in Hyes, Hno.
  assert (Hne' : ~ stopLoss == entryPrice (CalculatorState.params state))
    by exact Hne.
  pose proof (maxLoss_positive _ stopLoss takeProfit Hne') as Hml.
  pose proof (maxProfit_nonneg (CalculatorState.params state)
                               stopLoss takeProfit) as Hmp.
  pose proof (probabilityOfProfit_closed_form _ stopLoss takeProfit
                (Qpos_neq0 _ Hml)) as Hcf.
  assert (Hr : riskRewardRatio
                 (calculateRiskReward (CalculatorState.params state)
                                      stopLoss takeProfit) ==
               maxProfit (calculateRiskReward (CalculatorState.params state)
                                              stopLoss takeProfit) /
               maxLoss (calculateRiskReward (CalculatorState.params state)
                                            stopLoss takeProfit))
    by reflexivity.
  revert Hyes Hml Hmp Hcf Hr.
  generalize (calculateRiskReward (CalculatorState.params state)
                                  stopLoss takeProfit).
  intros res Hyes Hml Hmp Hcf Hr.
  assert (HG : isValid (validatePosition (CalculatorState.params state)) = true /\
               0 < stopLoss /\ 0 < takeProfit).
  { destruct (isValid (validatePosition (CalculatorState.params state)));
      [|rewrite Hno in Hc by (intros [H _]; discriminate H); discriminate Hc].
    destruct (Qlt_le_dec 0 stopLoss) as [H1|H1];
      [|rewrite Hno in Hc by (intros (_ & H & _); lra); discriminate Hc].
    destruct (Qlt_le_dec 0 takeProfit) as [H2|H2];
      [|rewrite Hno in Hc by (intros (_ & _ & H); lra); discriminate Hc].
    auto. }
  rewrite (Hyes HG) in Hc. cbn [calculation] in Hc. injection Hc as <-.
  cbn [RiskRewardRatio.result RiskRewardRatio.recommendation].
  split.
  - change (RiskRewardRatio.recommend 0) with
      "Poor risk/reward ratio. Consider revising your trade setup or avoiding this trade."%string.
    unfold RiskRewardRatio.recommend.
    destruct (leb_reflect 3 (riskRewardRatio res)) as [H3|H3];
      [split; [intros _; discriminate | intros _; lra]|].
    destruct (leb_reflect 2 (riskRewardRatio res)) as [H2|H2];
      [split; [intros _; discriminate | intros _; lra]|].
    destruct (leb_reflect 1.5 (riskRewardRatio res)) as [H15|H15];
      [split; [intros _; discriminate | intros _; exact H15]|].
    split; [intros H; contradiction | intros H; now destruct H].
  - intros H15. rewrite Hcf. rewrite Hr in H15.
    revert Hml Hmp H15.
    generalize (maxLoss res). generalize (maxProfit res).
    intros mp ml Hml Hmp H15.
    assert (Hs : 0 < ml + mp) by lra.
    apply Qle_shift_div_r; [exact Hs|].
    assert (H : 1.5 * ml <= mp).
    { destruct (Qlt_le_dec mp (1.5 * ml)) as [Hlt|Hle]; [|exact Hle].
      exfalso. apply (Qlt_not_le _ _ (Qlt_shift_div_r _ _ _ Hml Hlt)).
      exact H15. }
    lra.
Qed.

Lemma RiskRewardRatio_rating_against_probability_witness :
  (0 <= 100 /\ 100 <= MAX_VALUE /\ 90 <= MAX_VALUE /\ 130 <= MAX_VALUE /\
   ~ 90 == CalculatorState.entryPrice
             (CalculatorState.mk "AVAX" 1000 5 true 100 100)) /\
  exists c,
    calculation
      (RiskRewardRatio.effect (CalculatorState.mk "AVAX" 1000 5 true 100 100)
                              90 130) = Some c /\
    (1.5 <= riskRewardRatio (RiskRewardRatio.result c) ->
     probabilityOfProfit (RiskRewardRatio.result c) <= 40).
Proof.
  assert (H0 : 0 <= 100) by discriminate.
  assert (H1 : 100 <= MAX_VALUE) by (apply Qle_bool_iff; vm_compute; reflexivity).
  assert (H2 : 90 <= MAX_VALUE) by (apply Qle_bool_iff; vm_compute; reflexivity).
  assert (H3 : 130 <= MAX_VALUE) by (apply Qle_bool_iff; vm_compute; reflexivity).
  assert (Hne : ~ 90 == CalculatorState.entryPrice
                        (CalculatorState.mk "AVAX" 1000 5 true 100 100))
    by discriminate.
  split; [repeat split; assumption|].
  eexists. split; [reflexivity|].
  exact (proj2 (RiskRewardRatio_rating_against_probability
                  (CalculatorState.mk "AVAX" 1000 5 true 100 100) 90 130 _
                  eq_refl H0 H1 H2 H3 Hne)).
Defined.
